(** * The OS.js VNC application (src/index.js)

    A shallow embedding of the application's event wiring.  The file has
    three factories: [vncWindow] (one desktop window and one RFB client per
    connection), [connectionWindow] (the connection dialog) and [register]
    (session bookkeeping, tray menu, session restore).

    What the code owns is modelled as functions on an explicit application
    state [App]:
    - the [sessions] object, a JS object used as a dictionary keyed by the
      connection URL, is a [gmap string Session].  Keys are the object's own
      properties; the enumeration order of [Object.keys] is not modelled
      (enumerations go through [map_to_list]) and no statement below depends
      on it.  The object is made by the literal [{}], so a read
      [sessions[url]] that finds no own property goes on through the
      prototype chain, and the write [sessions['__proto__'] = r] replaces
      the prototype instead of storing a property: [sessions_proto] is the
      record installed that way, if any.  [Object.prototype] is taken to
      be as the language defines it when [register] runs.  The window,
      options and capabilities a record refers to are objects outside the
      state; the model keeps the values they had when the record was made,
      and a write of the code on one of them is recorded in [log];
    - [proc.args.sessions], the persisted copy, is an optional map from URL
      to connect options;
    - the closures created by the two render callbacks are the entries of
      [windows]: the position of an entry is the identity of its window.

    What the code calls (the services made by [core.make], the windows, the
    RFB client, the console) is recorded in [log], in call order, and so is
    a property write that lands on an object outside the state.  The
    lookups [proc.resource('logo.png')] and [core.has('osjs/sounds')] are
    read as values ([logo], [hasSounds]) and not recorded.  What calls the
    code (events of the shell's windows, of the RFB client, of the dialog
    widgets, of the tray) is a [Stimulus]; [step] runs the listeners that
    index.js registers for it.
    The contract assumed of the shell and of its event emitter is:
    - [x.render(callback)] calls [callback] at once, with the content
      element of [x] and [x] itself;
    - [emit] (of [proc] and of a window) runs the registered listeners at
      once; what a listener throws is caught by the emitter and passed to
      [console.warn], and [emit] returns normally;
    - an event the shell emits by itself ('render', 'destroy', keyboard,
      focus, ...) is a stimulus of its own: it arrives when no listener and
      no part of [register] is running.

    The replacement of [RFB.prototype._screenSize] (lines 37-42) changes the
    geometry computed inside the RFB library and takes part in no
    statement; the hyperapp [view] of the dialog is seen through the three
    input fields and the two buttons it wires to the actions. *)

From Stdlib Require Import ZArith.
From stdpp Require Import gmap strings list fin_maps.

Local Open Scope Z_scope.

(** ** JavaScript values *)

#[warnings="-register-all"]
Inductive JsVal :=
| JUndefined
| JNull
| JBool (b : bool)
| JNum (n : Z) (* integer-valued numbers; no arithmetic is done on them *)
| JStr (s : string)
| JObj (o : gmap string JsVal).

Abbreviation JsObj := (gmap string JsVal).

(** ToBoolean, as used by [!v] and [if (v)]. *)
Definition truthy (v : JsVal) : bool :=
  match v with
  | JUndefined | JNull => false
  | JBool b => b
  | JNum n => negb (n =? 0)
  | JStr s => negb (String.eqb s EmptyString)
  | JObj _ => true
  end.

(** [o.k] on an object: [undefined] when [k] is absent. *)
Definition js_get (o : JsObj) (k : string) : JsVal := default JUndefined (o !! k).

(** [Object.assign(target, source)]: every property of [source] is written
    over [target].  [V] is the type of the property values. *)
Definition Object_assign {V} (target source : gmap string V) : gmap string V :=
  source ∪ target.

(** ** Windows, sessions and events *)

(** A window object of the desktop shell, known by its identity. *)
Abbreviation WinId := nat.

(** [{win, options, capabilities}], the value stored under a URL. *)
Record Session := mkSession {
  win : WinId;
  options : JsObj;
  capabilities : JsObj;
}.

(** Events a window can emit, by name.  [Wother] stands for every name
    index.js registers no listener for. *)
Inductive WinEvent :=
| Wfocus
| Wblur
| Wkeydown (code : string) (* ev.code of the keyboard event *)
| Wkeyup (code : string)
| Wresize
| Wvnc_cad
| Wvnc_shutdown
| Wvnc_paste (text : string)
| Wvnc_reboot
| Wvnc_reset
| Wvnc_disconnect
| Wdestroy
| Wrender
| Wother (name : string).

(** Events of the RFB client that index.js listens to, with the parts of
    [ev.detail] the listeners read. *)
Inductive RfbEvent :=
| Rsecurityfailure (status : Z) (reason : string)
| Rbell
| Rdesktopname (name : string)
| Rclipboard (text : string)
| Rdisconnect
| Rconnect
| Rcapabilities (caps : JsObj)
| Rcredentialsrequired (types : list string).

(** Events emitted on [proc]. *)
Inductive ProcEvent :=
| Pdestroy
| Pvnc_create_session (url : string) (w : WinId) (opts : JsObj)
| Pvnc_destroy_session (url : string) (w : WinId)
| Pvnc_update_session (url : string) (w : WinId) (caps : JsObj).

(** Methods of the RFB client called by index.js. *)
Module RFB.
Inductive call :=
| sendKey (keysym : Z) (code : string) (down : bool)
| focus
| blur
| windowResize (* rfb._windowResize() *)
| sendCtrlAltDel
| machineShutdown
| clipboardPasteFrom (text : string)
| machineReboot
| machineReset
| disconnect.
End RFB.

(** The argument of [proc.createWindow]. *)
Record WindowOptions := mkWindowOptions {
  icon : string;
  title : string;
  width : Z;
  height : Z;
  position : option string;
  sessionable : option bool; (* attributes.sessionable *)
}.

(** [proc.resource('logo.png')] *)
Definition logo : string := "logo.png".

(** The [onclick] closures of the tray menu. *)
Inductive Action :=
| AcreateConnectionWindow
| AwinEmit (w : WinId) (ev : WinEvent)
| AprocDestroy.

(** A context-menu entry; an absent property is [None]. *)
#[warnings="-register-all"]
Inductive MenuItem :=
| Item (label : string) (disabled : option bool) (onclick : option Action)
       (items : option (list MenuItem)).

Definition item_label (i : MenuItem) : string :=
  match i with Item l _ _ _ => l end.
Definition item_disabled (i : MenuItem) : option bool :=
  match i with Item _ d _ _ => d end.
Definition item_items (i : MenuItem) : option (list MenuItem) :=
  match i with Item _ _ _ l => l end.

(** The three fields of the dialog's hyperapp state. *)
Module Dialog.
Record state := mk { url : string; username : string; password : string }.
Inductive field := Furl | Fusername | Fpassword.
Inductive action :=
| setState (f : field) (value : string) (* {url}, {username} or {password} *)
| close
| connect.
End Dialog.

(** The closure of a render callback: what its listeners can see. *)
Inductive Window :=
| VncWindow (url : string) (opts : JsObj)
| ConnectionWindow (state : Dialog.state).

Inductive Exn := TypeError.

(** What [sessions[name]] can be when [name] is no own property: an object
    reached through the prototype chain. *)
Inductive Target :=
| TObjectPrototype (* [Object.prototype], read as [sessions.__proto__] *)
| Tmember (name : string) (* the member [name] of [Object.prototype] *)
| Tinherited_capabilities (* [Object.prototype.capabilities], once written *)
| Twin (* the [win] of the record installed as prototype *)
| Toptions (* its [options] *)
| Tcapabilities. (* its [capabilities] *)

(** Calls into the desktop shell, the RFB library and the console. *)
Inductive Effect :=
| makeApplication (* core.make('osjs/application', {args, options, metadata}) *)
| localeTranslatableFlat (* core.make('osjs/locale').translatableFlat(title) *)
| createWindow (w : WinId) (o : WindowOptions)
| newRFB (w : WinId) (url : string) (o : JsObj) (* new RFB($content, url, o) *)
| rfbCall (w : WinId) (c : RFB.call)
| notification (icon title message : string)
| soundsPlay (name : string)
| clipboardSet (text : string)
| winSetTitle (w : WinId) (title : string)
| winDestroy (w : WinId)
| winClose (w : WinId)
| consoleWarn (v : JsVal)
| consoleWarnExn (e : Exn) (* console.warn(e) of the event emitter *)
| assignCapabilities (t : Target) (caps : JsObj) (* t.capabilities = caps *)
| consoleError (types : list string)
| trayCreate
| trayDestroy
| contextmenu (menu : list MenuItem)
| procDestroy.

(** ** Application state *)

Record App := mkApp {
  mainTitle : string; (* translatableFlat(proc.metadata.title) *)
  hasSounds : bool; (* core.has('osjs/sounds') *)
  sessions : gmap string Session;
  args_sessions : option (gmap string JsObj); (* proc.args.sessions *)
  windows : list Window;
  log : list Effect;
  sessions_proto : option Session; (* sessions.__proto__, when it is a record *)
  prototype_capabilities : bool; (* Object.prototype.capabilities was written *)
}.

Definition set_sessions (m : gmap string Session) (st : App) : App :=
  mkApp (mainTitle st) (hasSounds st) m (args_sessions st) (windows st) (log st)
        (sessions_proto st) (prototype_capabilities st).
Definition set_args_sessions (a : option (gmap string JsObj)) (st : App) : App :=
  mkApp (mainTitle st) (hasSounds st) (sessions st) a (windows st) (log st)
        (sessions_proto st) (prototype_capabilities st).
Definition set_windows (l : list Window) (st : App) : App :=
  mkApp (mainTitle st) (hasSounds st) (sessions st) (args_sessions st) l (log st)
        (sessions_proto st) (prototype_capabilities st).
Definition set_log (l : list Effect) (st : App) : App :=
  mkApp (mainTitle st) (hasSounds st) (sessions st) (args_sessions st) (windows st) l
        (sessions_proto st) (prototype_capabilities st).
Definition set_sessions_proto (r : option Session) (st : App) : App :=
  mkApp (mainTitle st) (hasSounds st) (sessions st) (args_sessions st) (windows st) (log st)
        r (prototype_capabilities st).
Definition set_prototype_capabilities (b : bool) (st : App) : App :=
  mkApp (mainTitle st) (hasSounds st) (sessions st) (args_sessions st) (windows st) (log st)
        (sessions_proto st) b.

(** ** Listeners: state, log, exceptions *)

Inductive Result :=
| Ok (st : App)
| Throw (e : Exn) (st : App).

Definition state_of (r : Result) : App :=
  match r with Ok st | Throw _ st => st end.

Definition M := App → Result.

Definition skip : M := Ok.
Definition throw (e : Exn) : M := Throw e.
Definition and_then (m k : M) : M :=
  λ st, match m st with Ok st' => k st' | Throw e st' => Throw e st' end.
Declare Scope listener_scope.
Notation "m ;; k" := (and_then m k)
  (at level 100, k at level 200, right associativity) : listener_scope.
Local Open Scope listener_scope.

Definition effect (e : Effect) : M := λ st, Ok (set_log (log st ++ [e]) st).

(** A listener as the event emitter runs it: what it throws is caught and
    passed to [console.warn]. *)
Definition caught (m : M) : M :=
  λ st, match m st with
        | Ok st' => Ok st'
        | Throw e st' => effect (consoleWarnExn e) st'
        end.

Fixpoint forEach {A} (f : A → M) (l : list A) : M :=
  match l with
  | [] => skip
  | x :: l => f x ;; forEach f l
  end.

(** ** register: session bookkeeping (lines 171-172, 224-236) *)

Definition updateApplicationSession : M := λ st,
  Ok (set_args_sessions
        (Some (foldl (λ result '(url, s), Object_assign {[url := options s]} result)
                     ∅ (map_to_list (sessions st)))) st).

(** The members of [Object.prototype], which every object made by [{}]
    inherits. *)
Definition Object_prototype_members : list string :=
  [ "constructor"; "__defineGetter__"; "__defineSetter__"; "hasOwnProperty";
    "__lookupGetter__"; "__lookupSetter__"; "isPrototypeOf"; "propertyIsEnumerable";
    "toString"; "valueOf"; "__proto__"; "toLocaleString" ].

Definition is_member (name : string) : bool :=
  bool_decide (name ∈ Object_prototype_members).

(** The value of [sessions[url]]. *)
Inductive Found :=
| Found_own (s : Session) (* an own property: the record of a session *)
| Found_prototype (r : Session) (* [sessions.__proto__], a record *)
| Found_elsewhere (t : Target) (* another object of the prototype chain *)
| Found_nothing. (* undefined *)

(** [r[name]] for a record [r = {win, options, capabilities}]. *)
Definition record_field (name : string) : option Target :=
  if String.eqb name "win" then Some Twin
  else if String.eqb name "options" then Some Toptions
  else if String.eqb name "capabilities" then Some Tcapabilities
  else None.

(** [sessions[name]] as [Object.prototype] answers it: the accessor
    [__proto__] gives the prototype of [sessions]. *)
Definition Object_prototype_get (name : string) (st : App) : Found :=
  if String.eqb name "__proto__" then
    match sessions_proto st with
    | Some r => Found_prototype r
    | None => Found_elsewhere TObjectPrototype
    end
  else if is_member name then Found_elsewhere (Tmember name)
  else if prototype_capabilities st && String.eqb name "capabilities"
       then Found_elsewhere Tinherited_capabilities
  else Found_nothing.

(** [sessions[url]]: the own properties, then the record installed as
    prototype, then [Object.prototype]. *)
Definition sessions_get (url : string) (st : App) : Found :=
  match sessions st !! url with
  | Some s => Found_own s
  | None =>
      match sessions_proto st, record_field url with
      | Some r, Some t => Found_elsewhere t
      | _, _ => Object_prototype_get url st
      end
  end.

(** [sessions[url] = r].  [sessions] starts as [{}] and is written here
    only, so ['__proto__'] is never an own property and the write reaches
    the setter of [Object.prototype]: [r] becomes the prototype. *)
Definition sessions_set (url : string) (r : Session) (st : App) : App :=
  if String.eqb url "__proto__"
  then set_sessions_proto (Some r) st
  else set_sessions (<[url := r]> (sessions st)) st.

Definition on_vnc_create_session (url : string) (w : WinId) (opts : JsObj) : M :=
  (λ st, Ok (sessions_set url (mkSession w opts ∅) st)) ;;
  updateApplicationSession.

Definition on_vnc_destroy_session (url : string) (w : WinId) : M :=
  (λ st, Ok (set_sessions (delete url (sessions st)) st)) ;;
  updateApplicationSession.

(** [sessions[url].capabilities = capabilities]: the write lands on
    whatever [sessions[url]] is, and throws when that is [undefined]. *)
Definition on_vnc_update_session (url : string) (w : WinId) (caps : JsObj) : M :=
  λ st, match sessions_get url st with
        | Found_own s =>
            Ok (set_sessions (<[url := mkSession (win s) (options s) caps]> (sessions st)) st)
        | Found_prototype r =>
            Ok (set_sessions_proto (Some (mkSession (win r) (options r) caps)) st)
        | Found_elsewhere TObjectPrototype =>
            effect (assignCapabilities TObjectPrototype caps)
                   (set_prototype_capabilities true st)
        | Found_elsewhere t => effect (assignCapabilities t caps) st
        | Found_nothing => throw TypeError st
        end.

(** The listeners registered on [proc] (lines 222-236). *)
Definition proc_on (ev : ProcEvent) : M :=
  match ev with
  | Pdestroy => effect trayDestroy
  | Pvnc_create_session url w opts => on_vnc_create_session url w opts
  | Pvnc_destroy_session url w => on_vnc_destroy_session url w
  | Pvnc_update_session url w caps => on_vnc_update_session url w caps
  end.

Definition proc_emit (ev : ProcEvent) : M := caught (proc_on ev).

(** ** vncWindow (lines 47-111) *)

Definition playSound (name : string) : M :=
  λ st, if hasSounds st then effect (soundsPlay name) st else Ok st.

Definition createNotification (message : string) : M :=
  λ st, effect (notification logo (mainTitle st) message) st.

Definition sendKey (w : WinId) (code : string) (down : bool) : M :=
  effect (rfbCall w (RFB.sendKey 0 code down)).

Definition setTitle (w : WinId) (append : string) : M :=
  λ st, effect (winSetTitle w (mainTitle st +:+ " - " +:+ append)) st.

(** The options the RFB client is constructed with. *)
Definition rfb_options (opts : JsObj) : JsObj :=
  Object_assign {["shared" := JBool true]} opts.

(** The listeners registered on the window, with [url] and [options] as the
    render callback closes over them. *)
Definition vnc_win_on (w : WinId) (url : string) (opts : JsObj) (ev : WinEvent) : M :=
  match ev with
  | Wfocus => effect (rfbCall w RFB.focus)
  | Wblur => effect (rfbCall w RFB.blur)
  | Wkeydown code => sendKey w code true
  | Wkeyup code => sendKey w code false
  | Wresize => effect (rfbCall w RFB.windowResize)
  | Wvnc_cad => effect (rfbCall w RFB.sendCtrlAltDel)
  | Wvnc_shutdown => effect (rfbCall w RFB.machineShutdown)
  | Wvnc_paste text => effect (rfbCall w (RFB.clipboardPasteFrom text))
  | Wvnc_reboot => effect (rfbCall w RFB.machineReboot)
  | Wvnc_reset => effect (rfbCall w RFB.machineReset)
  | Wvnc_disconnect => effect (rfbCall w RFB.disconnect)
  | Wdestroy => proc_emit (Pvnc_destroy_session url w)
  | Wrender => proc_emit (Pvnc_create_session url w opts)
  | Wother _ => skip
  end.

(** [win.emit(ev)]: a connection dialog has no listener of index.js. *)
Definition win_emit (w : WinId) (ev : WinEvent) : M :=
  λ st, match windows st !! w with
        | Some (VncWindow url opts) => caught (vnc_win_on w url opts ev) st
        | _ => Ok st
        end.

(** The listeners registered on the RFB client.  [ev.detail.tatus] names no
    property of the event's detail and prints as [undefined]. *)
Definition vnc_rfb_on (w : WinId) (url : string) (ev : RfbEvent) : M :=
  match ev with
  | Rsecurityfailure _ reason =>
      createNotification
        ("Security handshake failure (" +:+ "undefined" +:+ "): " +:+ reason)
  | Rbell => playSound "bell"
  | Rdesktopname name => setTitle w name
  | Rclipboard text => effect (clipboardSet text)
  | Rdisconnect =>
      createNotification ("Disconnected from " +:+ url) ;;
      effect (winDestroy w)
  | Rconnect =>
      createNotification ("Connected to " +:+ url) ;;
      win_emit w Wresize
  | Rcapabilities caps =>
      proc_emit (Pvnc_update_session url w caps) ;;
      effect (consoleWarn (JObj caps))
  | Rcredentialsrequired types => effect (consoleError types)
  end.

Definition rfb_dispatch (w : WinId) (ev : RfbEvent) : M :=
  λ st, match windows st !! w with
        | Some (VncWindow url _) => vnc_rfb_on w url ev st
        | _ => Ok st
        end.

(** [proc.createWindow(o)]: the shell makes a new window object, distinct
    from every earlier one.  [c] is what the render callback closes over. *)
Definition proc_createWindow (o : WindowOptions) (c : Window) : M :=
  λ st, (effect (createWindow (length (windows st)) o) ;;
         (λ st', Ok (set_windows (windows st' ++ [c]) st'))) st.

(** The factory returned by [vncWindow(core, proc)].  An absent second
    argument is [None] and takes the default [{}]. *)
Definition createVncWindow (url : string) (options : option JsObj) : M :=
  λ st,
    let opts := default ∅ options in
    let w := length (windows st) in
    (proc_createWindow
       (mkWindowOptions logo (mainTitle st +:+ " - Connecting to " +:+ url)
                        800 600 None None)
       (VncWindow url opts) ;;
     effect (newRFB w url (rfb_options opts)) ;;
     win_emit w Wresize) st.

(** ** connectionWindow (lines 116-157) *)

Definition initial_dialog : Dialog.state :=
  Dialog.mk "ws://10.0.0.74:6080" EmptyString "abc123".

Definition dialog_merge (f : Dialog.field) (v : string) (s : Dialog.state) : Dialog.state :=
  match f with
  | Dialog.Furl => Dialog.mk v (Dialog.username s) (Dialog.password s)
  | Dialog.Fusername => Dialog.mk (Dialog.url s) v (Dialog.password s)
  | Dialog.Fpassword => Dialog.mk (Dialog.url s) (Dialog.username s) v
  end.

(** [{credentials: {username, password}}] *)
Definition credentials_options (s : Dialog.state) : JsObj :=
  {["credentials" :=
      JObj (<["username" := JStr (Dialog.username s)]>
              {["password" := JStr (Dialog.password s)]})]}.

(** The hyperapp actions of the dialog in window [w], with [callback] the
    third argument of [connectionWindow]. *)
Definition dialog_action (callback : string → JsObj → M) (w : WinId)
    (s : Dialog.state) (a : Dialog.action) : M :=
  match a with
  | Dialog.setState f v =>
      λ st, Ok (set_windows (<[w := ConnectionWindow (dialog_merge f v s)]> (windows st)) st)
  | Dialog.close => effect (winClose w)
  | Dialog.connect =>
      effect (winClose w) ;;
      callback (Dialog.url s) (credentials_options s)
  end.

Definition createConnectionWindow : M :=
  effect localeTranslatableFlat ;;
  λ st, proc_createWindow
          (mkWindowOptions logo (mainTitle st) 400 300 (Some "center") (Some false))
          (ConnectionWindow initial_dialog) st.

(** The callback [register] passes to [connectionWindow] (lines 167-169). *)
Definition connect_callback (url : string) (opts : JsObj) : M :=
  createVncWindow url (Some opts).

Definition dialog_dispatch (w : WinId) (a : Dialog.action) : M :=
  λ st, match windows st !! w with
        | Some (ConnectionWindow s) => dialog_action connect_callback w s a st
        | _ => Ok st
        end.

(** ** register: tray menu (lines 174-220) *)

Definition power (caps : JsObj) : JsVal := js_get caps "power".

Definition power_items (w : WinId) (caps : JsObj) : list MenuItem :=
  [ Item "Send Ctrl+Alt+Del" (Some (negb (truthy (power caps))))
         (Some (AwinEmit w Wvnc_cad)) None;
    Item "Send shutdown signal" (Some (negb (truthy (power caps))))
         (Some (AwinEmit w Wvnc_shutdown)) None;
    Item "Send reboot signal" (Some (negb (truthy (power caps))))
         (Some (AwinEmit w Wvnc_reboot)) None;
    Item "Send reset signal" (Some (negb (truthy (power caps))))
         (Some (AwinEmit w Wvnc_reset)) None ].

Definition session_entry (url : string) (s : Session) : MenuItem :=
  Item url None None
       (Some (Item "Disconnect" None (Some (AwinEmit (win s) Wvnc_disconnect)) None
                :: power_items (win s) (capabilities s))).

Definition getSessionMenu (st : App) : list MenuItem :=
  (λ '(url, s), session_entry url s) <$> map_to_list (sessions st).

Definition sessions_item (st : App) : MenuItem :=
  Item "Sessions"
       (Some (bool_decide (length (map_to_list (sessions st)).*1 ≤ 0)%nat))
       None (Some (getSessionMenu st)).

Definition tray_menu (st : App) : list MenuItem :=
  [ Item "Create VNC connection" None (Some AcreateConnectionWindow) None;
    sessions_item st;
    Item "Quit" None (Some AprocDestroy) None ].

Definition tray_onclick : M := λ st, effect (contextmenu (tray_menu st)) st.

Definition menu_onclick (a : Action) : M :=
  match a with
  | AcreateConnectionWindow => createConnectionWindow
  | AwinEmit w ev => win_emit w ev
  | AprocDestroy => effect procDestroy
  end.

(** ** register (lines 162-246) *)

(** [register] makes the application object (line 164), then the VNC
    window factory, which makes the translated title (line 165, through
    line 48), then the tray entry (line 204), and then restores the saved
    sessions or opens a dialog (lines 238-243).  The saved sessions are
    visited in the order of [map_to_list], where the code has that of
    [Object.keys]; the statements about restoring are up to that order. *)
Definition register (title : string) (sounds : bool)
    (args : option (gmap string JsObj)) : App :=
  state_of
    ((effect makeApplication ;;
      effect localeTranslatableFlat ;;
      effect trayCreate ;;
      match args with
      | Some saved =>
          forEach (λ url, createVncWindow url (saved !! url)) (map_to_list saved).*1
      | None => createConnectionWindow
      end)
       (mkApp title sounds ∅ args [] [] None false)).

(** ** The application as a reactive system *)

Inductive Stimulus :=
| WinEv (w : WinId) (ev : WinEvent) (* the shell emits [ev] on window [w] *)
| RfbEv (w : WinId) (ev : RfbEvent) (* the RFB client of window [w] fires [ev] *)
| DialogEv (w : WinId) (a : Dialog.action) (* input or button of dialog [w] *)
| TrayClick
| MenuClick (a : Action)
| ProcDestroy. (* the shell emits 'destroy' on [proc] *)

Definition step (s : Stimulus) : M :=
  match s with
  | WinEv w ev => win_emit w ev
  | RfbEv w ev => rfb_dispatch w ev
  | DialogEv w a => dialog_dispatch w a
  | TrayClick => tray_onclick
  | MenuClick a => menu_onclick a
  | ProcDestroy => proc_emit Pdestroy
  end.

(** The application goes on from the state a step left.  (A step always
    ends in [Ok]: the emitters catch what their listeners throw, and the
    other listeners throw nothing.) *)
Fixpoint run (l : list Stimulus) (st : App) : App :=
  match l with
  | [] => st
  | s :: l => run l (state_of (step s st))
  end.

Definition reachable (st : App) : Prop :=
  ∃ title sounds args l, st = run l (register title sounds args).


(** ** Observations and invariants used in the statements *)

(** The [(url, options)] pairs the VNC window factory was called with, one
    per window it made, and the dialogs that were opened. *)
Definition vnc_windows (st : App) : list (string * JsObj) :=
  omap (λ c, match c with VncWindow url opts => Some (url, opts) | _ => None end)
       (windows st).

Definition connection_windows (st : App) : list Dialog.state :=
  omap (λ c, match c with ConnectionWindow d => Some d | _ => None end)
       (windows st).

(** The one stimulus that delivers capabilities. *)
Definition is_capabilities (s : Stimulus) : bool :=
  match s with RfbEv _ (Rcapabilities _) => true | _ => false end.

(** A relation between the state before and after a listener. *)
Definition mono (R : relation App) (m : M) : Prop := ∀ st, R st (state_of (m st)).

(** An invariant kept by a listener, whether it returns or throws. *)
Definition keeps (I : App → Prop) (m : M) : Prop := ∀ st, I st → I (state_of (m st)).

(** [extends st st']: the shell configuration is the same, every VNC window
    closure of [st] is still there in [st'], and no window identity was
    given back. *)
Definition extends (st st' : App) : Prop :=
  mainTitle st' = mainTitle st ∧ hasSounds st' = hasSounds st ∧
  (length (windows st) ≤ length (windows st'))%nat ∧
  ∀ w url opts, windows st !! w = Some (VncWindow url opts) →
                windows st' !! w = Some (VncWindow url opts).

(** The record stored under [url] holds a window that [createVncWindow]
    made for [url], and the options it made it with. *)
Definition sessions_wf (st : App) : Prop :=
  ∀ url s, sessions st !! url = Some s →
           windows st !! win s = Some (VncWindow url (options s)).

(** The session of [url], if there is one, has capabilities [{}]. *)
Definition fresh_capabilities (url : string) (st : App) : Prop :=
  ∀ s, sessions st !! url = Some s → capabilities s = ∅.

(** ** A small scenario *)

(** Started without saved sessions: window 0 is the connection dialog. *)
Definition started : App := register "VNC" true None.

(** Connect was pressed in the dialog: window 1 is a VNC window for the
    dialog's URL. *)
Definition connecting : App := run [DialogEv 0 Dialog.connect] started.

(** The shell has emitted 'render' on window 1: its session is tracked. *)
Definition connected : App := run [WinEv 1 Wrender] connecting.

Definition demo_url : string := "ws://10.0.0.74:6080".

(** The options the dialog passes on when Connect is pressed right away. *)
Definition demo_options : JsObj :=
  {[ "credentials" := JObj {[ "username" := JStr EmptyString; "password" := JStr "abc123" ]} ]}.

(** ** Observations used by the further properties *)

Definition item_onclick (i : MenuItem) : option Action :=
  match i with Item _ _ a _ => a end.

(** What a listener added to the log. *)
Definition new_effects (st st' : App) : list Effect :=
  drop (length (log st)) (log st').

(** The RFB clients constructed so far, in order: window, URL, options. *)
Definition clients (l : list Effect) : list (WinId * string * JsObj) :=
  omap (λ e, match e with newRFB w url o => Some (w, url, o) | _ => None end) l.

(** The VNC window closures from position [n] on, each with the options
    line 63 gives to its client. *)
Fixpoint closures_from (n : nat) (ws : list Window) : list (WinId * string * JsObj) :=
  match ws with
  | [] => []
  | VncWindow url opts :: ws => (n, url, rfb_options opts) :: closures_from (S n) ws
  | ConnectionWindow _ :: ws => closures_from (S n) ws
  end.

(** The windows asked of the shell so far, in order. *)
Definition created (l : list Effect) : list (WinId * WindowOptions) :=
  omap (λ e, match e with createWindow w o => Some (w, o) | _ => None end) l.

(** The argument of [proc.createWindow] in each factory (lines 56-60 and
    131-137), by the kind of closure. *)
Definition window_options (title : string) (c : Window) : WindowOptions :=
  match c with
  | VncWindow url _ =>
      mkWindowOptions logo (title +:+ " - Connecting to " +:+ url) 800 600 None None
  | ConnectionWindow _ =>
      mkWindowOptions logo title 400 300 (Some "center") (Some false)
  end.

Fixpoint created_from (title : string) (n : nat) (ws : list Window)
  : list (WinId * WindowOptions) :=
  match ws with
  | [] => []
  | c :: ws => (n, window_options title c) :: created_from title (S n) ws
  end.

(** The windows whose RFB client exists after the calls of [l]. *)
Definition constructed (l : list Effect) : gset nat :=
  list_to_set ((λ c, c.1.1) <$> clients l).

(** Every method call of [l] is on a client constructed before it, [seen]
    being the clients that exist at the start. *)
Fixpoint calls_ok (seen : gset nat) (l : list Effect) : bool :=
  match l with
  | [] => true
  | newRFB w _ _ :: l => calls_ok ({[w]} ∪ seen) l
  | rfbCall w _ :: l => bool_decide (w ∈ seen) && calls_ok seen l
  | _ :: l => calls_ok seen l
  end.

(** Typing into the fields of dialog [w]. *)
Definition typing (w : WinId) (inputs : list (Dialog.field * string)) : list Stimulus :=
  (λ '(f, v), DialogEv w (Dialog.setState f v)) <$> inputs.

Definition field_eqb (f g : Dialog.field) : bool :=
  match f, g with
  | Dialog.Furl, Dialog.Furl
  | Dialog.Fusername, Dialog.Fusername
  | Dialog.Fpassword, Dialog.Fpassword => true
  | _, _ => false
  end.

Definition field_value (f : Dialog.field) (d : Dialog.state) : string :=
  match f with
  | Dialog.Furl => Dialog.url d
  | Dialog.Fusername => Dialog.username d
  | Dialog.Fpassword => Dialog.password d
  end.

(** The last value typed into field [f], if any. *)
Definition last_typed (f : Dialog.field) (inputs : list (Dialog.field * string))
  : option string :=
  last (omap (λ '(g, v), if field_eqb f g then Some v else None) inputs).

Definition is_render (s : Stimulus) : bool :=
  match s with WinEv _ Wrender => true | _ => false end.

Definition is_proc_destroy (s : Stimulus) : bool :=
  match s with ProcDestroy => true | _ => false end.

Definition is_trayCreate (e : Effect) : bool :=
  match e with trayCreate => true | _ => false end.

Definition is_trayDestroy (e : Effect) : bool :=
  match e with trayDestroy => true | _ => false end.

(** The invariant of the persisted copy, [args] being the launch argument. *)
Definition persisted (args : option (gmap string JsObj)) (st : App) : Prop :=
  args_sessions st = Some (options <$> sessions st) ∨
  (sessions st = ∅ ∧ args_sessions st = args).

(** ** A second scenario: two connections to one URL *)

(** From [connecting]: a second dialog is opened from the tray menu
    (window 2) and connected with the same default URL (window 3). *)
Definition twice : App :=
  run [MenuClick AcreateConnectionWindow; DialogEv 2 Dialog.connect] connecting.

(** Two saved sessions, as restored at registration. *)
Definition two_saved : gmap string JsObj :=
  {[ "ws://a:6080" := ∅; "ws://b:6080" := {[ "shared" := JBool false ]} ]}.

(** ** What the listeners may call *)

(** The calls a listener makes outside the two window factories, with what
    the listener knows when it makes them: an RFB method, a title or a
    destroy on a VNC window; a close on a dialog; a sound only when the
    sounds service is there; a notification under the application's icon
    and title.  Windows and RFB clients are made by the factories only, the
    tray by [register]. *)
Definition plain (st : App) (e : Effect) : Prop :=
  match e with
  | createWindow _ _ | newRFB _ _ _ | trayCreate => False
  | rfbCall w _ | winSetTitle w _ | winDestroy w =>
      ∃ url opts, windows st !! w = Some (VncWindow url opts)
  | winClose w => ∃ d, windows st !! w = Some (ConnectionWindow d)
  | soundsPlay name => hasSounds st = true ∧ name = "bell"
  | notification i t _ => i = logo ∧ t = mainTitle st
  | _ => True
  end.

(** An invariant, as a relation between the states around a listener. *)
Definition carries (I : App → Prop) : relation App := λ st st', I st → I st'.

(** Every call in the log comes after the construction of its client, and
    every VNC window closure has its client. *)
Definition calls_inv (st : App) : Prop :=
  calls_ok ∅ (log st) = true ∧
  ∀ w url opts, windows st !! w = Some (VncWindow url opts) → w ∈ constructed (log st).


(** ** The prototype chain, as the statements see it *)

(** Whether [name], when it is no own property of [sessions], is found
    further up: in the record installed as prototype or in
    [Object.prototype]. *)
Definition inherited (name : string) (st : App) : bool :=
  is_member name ||
  match sessions_proto st with
  | Some _ => bool_decide (name ∈ ["win"; "options"; "capabilities"])
  | None => prototype_capabilities st && String.eqb name "capabilities"
  end.

(** Whether [s] is a 'capabilities' event of the RFB client of a VNC
    window made for [url]. *)
Definition capabilities_for (url : string) (st : App) (s : Stimulus) : bool :=
  match s with
  | RfbEv w (Rcapabilities _) =>
      match windows st !! w with
      | Some (VncWindow u _) => String.eqb u url
      | _ => false
      end
  | _ => false
  end.

(** No 'capabilities' event for [url] arrives along [l], run from [st]. *)
Fixpoint no_capabilities_for (url : string) (l : list Stimulus) (st : App) : bool :=
  match l with
  | [] => true
  | s :: l =>
      negb (capabilities_for url st s) &&
      no_capabilities_for url l (state_of (step s st))
  end.

(** The four power items, by label and [disabled]. *)
Definition power_labels (d : bool) : list (string * option bool) :=
  [ ("Send Ctrl+Alt+Del", Some d); ("Send shutdown signal", Some d);
    ("Send reboot signal", Some d); ("Send reset signal", Some d) ].

(** ** A third scenario: the URL '__proto__' *)

(** From [started]: '__proto__' is typed as URL and Connect is pressed
    (window 1). *)
Definition proto_connecting : App :=
  run [DialogEv 0 (Dialog.setState Dialog.Furl "__proto__"); DialogEv 0 Dialog.connect]
      started.

(** The shell has emitted 'render' on that window. *)
Definition proto_connected : App := run [WinEv 1 Wrender] proto_connecting.

(** ** A fourth scenario: the URL 'constructor' *)

(** From [started]: 'constructor' is typed as URL and Connect is pressed
    (window 1); the window has not been rendered, so the URL is not
    tracked. *)
Definition member_connecting : App :=
  run [DialogEv 0 (Dialog.setState Dialog.Furl "constructor"); DialogEv 0 Dialog.connect]
      started.
(** * Properties *)

(** ** Listener combinators *)

Lemma and_then_Ok (m k : M) st st' : m st = Ok st' → (m ;; k) st = k st'.
Proof. unfold and_then. by intros ->. Qed.

Lemma and_then_Throw (m k : M) st e st' : m st = Throw e st' → (m ;; k) st = Throw e st'.
Proof. unfold and_then. by intros ->. Qed.

Lemma caught_Ok (m : M) st st' : m st = Ok st' → caught m st = Ok st'.
Proof. unfold caught. by intros ->. Qed.

Lemma caught_Throw (m : M) st e st' :
  m st = Throw e st' →
  caught m st = Ok (set_log (log st' ++ [consoleWarnExn e]) st').
Proof. unfold caught. by intros ->. Qed.

Lemma lookup_snoc {A} (l : list A) (x : A) : (l ++ [x]) !! length l = Some x.
Proof. by rewrite lookup_app_r, Nat.sub_diag by lia. Qed.

(** What relates the states around each part relates them around the whole. *)
Section Mono.
Context (R : relation App) `{!PreOrder R}.

Lemma mono_skip : mono R skip.
Proof. intros st. simpl. reflexivity. Qed.

Lemma mono_and_then m k : mono R m → mono R k → mono R (m ;; k).
Proof.
  intros Hm Hk st. specialize (Hm st). unfold and_then.
  destruct (m st) as [st'|e st']; simpl in *; [|done].
  etrans; [exact Hm|apply Hk].
Qed.

Lemma mono_forEach {A} (f : A → M) l : (∀ x, mono R (f x)) → mono R (forEach f l).
Proof.
  intros Hf. induction l as [|x l IH]; simpl; [apply mono_skip|].
  apply mono_and_then; [apply Hf|apply IH].
Qed.
End Mono.

(** An invariant kept by the parts is kept by the whole. *)
Section Inv.
Context (I : App → Prop).

Lemma keeps_skip : keeps I skip.
Proof. by intros st. Qed.

Lemma keeps_and_then m k : keeps I m → keeps I k → keeps I (m ;; k).
Proof.
  intros Hm Hk st HI. specialize (Hm st HI). unfold and_then.
  destruct (m st) as [st'|e st']; simpl in *; [|done].
  by apply Hk.
Qed.

Lemma keeps_forEach {A} (f : A → M) l : (∀ x, keeps I (f x)) → keeps I (forEach f l).
Proof.
  intros Hf. induction l as [|x l IH]; simpl; [apply keeps_skip|].
  apply keeps_and_then; [apply Hf|apply IH].
Qed.

Lemma run_keeps l : (∀ s, s ∈ l → keeps I (step s)) → ∀ st, I st → I (run l st).
Proof.
  induction l as [|s l IH]; intros Hl st HI; simpl; [done|].
  apply IH; [intros s' Hs'; apply Hl; by right|]. apply Hl; [by left|done].
Qed.
End Inv.

(** ** Session bookkeeping *)

(** The reduce of [updateApplicationSession] over any enumeration of the
    entries: each step adds [url ↦ options] below what is already there. *)
Lemma persist_foldl (l : list (string * Session)) (acc : gmap string JsObj) :
  foldl (λ result '(url, s), Object_assign {[url := options s]} result) acc l
  = acc ∪ list_to_map (prod_map id options <$> l).
Proof.
  revert acc. induction l as [|[url s] l IH]; intros acc; simpl.
  - by rewrite (right_id_L ∅ (∪)).
  - rewrite IH. unfold Object_assign.
    by rewrite <-(assoc_L (∪)), <-insert_union_singleton_l.
Qed.

Lemma updateApplicationSession_spec st :
  updateApplicationSession st
  = Ok (set_args_sessions (Some (options <$> sessions st)) st).
Proof.
  unfold updateApplicationSession. rewrite persist_foldl, (left_id_L ∅ (∪)).
  by rewrite list_to_map_fmap, list_to_map_to_list.
Qed.

Lemma sessions_set_own url r st :
  url ≠ "__proto__" → sessions_set url r st = set_sessions (<[url := r]> (sessions st)) st.
Proof. intros Hne. unfold sessions_set. by rewrite (proj2 (String.eqb_neq _ _) Hne). Qed.

Lemma sessions_set_proto r st :
  sessions_set "__proto__" r st = set_sessions_proto (Some r) st.
Proof. reflexivity. Qed.

Lemma sessions_set_cases url r st :
  (url ≠ "__proto__" ∧ sessions_set url r st = set_sessions (<[url := r]> (sessions st)) st) ∨
  (url = "__proto__" ∧ sessions_set url r st = set_sessions_proto (Some r) st).
Proof.
  destruct (decide (url = "__proto__")) as [->|Hne]; [by right|].
  left. split; [done|]. by apply sessions_set_own.
Qed.

Lemma on_vnc_create_session_any url w opts st :
  on_vnc_create_session url w opts st
  = Ok (set_args_sessions
          (Some (options <$> sessions (sessions_set url (mkSession w opts ∅) st)))
          (sessions_set url (mkSession w opts ∅) st)).
Proof. unfold on_vnc_create_session, and_then. by rewrite updateApplicationSession_spec. Qed.

Lemma on_vnc_create_session_spec url w opts st :
  url ≠ "__proto__" →
  on_vnc_create_session url w opts st
  = Ok (set_args_sessions
          (Some (options <$> <[url := mkSession w opts ∅]> (sessions st)))
          (set_sessions (<[url := mkSession w opts ∅]> (sessions st)) st)).
Proof. intros Hne. by rewrite on_vnc_create_session_any, sessions_set_own. Qed.

Lemma on_vnc_create_session_proto w opts st :
  on_vnc_create_session "__proto__" w opts st
  = Ok (set_args_sessions (Some (options <$> sessions st))
          (set_sessions_proto (Some (mkSession w opts ∅)) st)).
Proof. by rewrite on_vnc_create_session_any. Qed.

Lemma on_vnc_destroy_session_spec url w st :
  on_vnc_destroy_session url w st
  = Ok (set_args_sessions
          (Some (options <$> delete url (sessions st)))
          (set_sessions (delete url (sessions st)) st)).
Proof. unfold on_vnc_destroy_session, and_then. by rewrite updateApplicationSession_spec. Qed.

Lemma proc_emit_create url w opts st :
  proc_emit (Pvnc_create_session url w opts) st = on_vnc_create_session url w opts st.
Proof.
  unfold proc_emit, proc_on. rewrite on_vnc_create_session_any.
  apply caught_Ok, on_vnc_create_session_any.
Qed.

Lemma proc_emit_destroy url w st :
  proc_emit (Pvnc_destroy_session url w) st = on_vnc_destroy_session url w st.
Proof.
  unfold proc_emit, proc_on. rewrite on_vnc_destroy_session_spec.
  apply caught_Ok, on_vnc_destroy_session_spec.
Qed.

(** ** Reading the session object *)

Lemma sessions_get_own url s st :
  sessions st !! url = Some s → sessions_get url st = Found_own s.
Proof. unfold sessions_get. by intros ->. Qed.

Lemma is_member_proto : is_member "__proto__" = true.
Proof. reflexivity. Qed.

Lemma record_field_None name :
  record_field name = None ↔ name ∉ ["win"; "options"; "capabilities"].
Proof.
  unfold record_field.
  destruct (String.eqb_spec name "win") as [->|H1];
    [split; [done|intros H; exfalso; apply H; apply list_elem_of_here]|].
  destruct (String.eqb_spec name "options") as [->|H2];
    [split; [done|intros H; exfalso; apply H; apply list_elem_of_further, list_elem_of_here]|].
  destruct (String.eqb_spec name "capabilities") as [->|H3];
    [split; [done|intros H; exfalso; apply H;
                  do 2 apply list_elem_of_further; apply list_elem_of_here]|].
  split; [|done]. intros _ Hin.
  repeat (apply elem_of_cons in Hin as [Hin|Hin]; [done|]). by apply elem_of_nil in Hin.
Qed.

(** [sessions[url]] is [undefined] exactly when [url] is neither an own
    property nor inherited. *)
Lemma sessions_get_nothing url st :
  sessions_get url st = Found_nothing ↔
  sessions st !! url = None ∧ inherited url st = false.
Proof.
  unfold sessions_get, inherited, Object_prototype_get.
  destruct (sessions st !! url) as [s|]; [split; [done|by intros []]|].
  destruct (String.eqb_spec url "__proto__") as [->|Hp].
  { rewrite is_member_proto. simpl.
    destruct (sessions_proto st); split; try done; by intros []. }
  destruct (is_member url) eqn:Hm; simpl.
  { destruct (sessions_proto st), (record_field url); split; try done; by intros []. }
  destruct (sessions_proto st) as [r|].
  - destruct (record_field url) as [t|] eqn:Hf.
    + split; [done|]. intros [_ Hd]. apply bool_decide_eq_false in Hd.
      apply record_field_None in Hd. congruence.
    + apply record_field_None in Hf. rewrite (bool_decide_eq_false_2 _ Hf).
      destruct (prototype_capabilities st); simpl; [|done].
      destruct (String.eqb_spec url "capabilities") as [->|Hc]; [|done].
      exfalso. apply Hf. do 2 apply list_elem_of_further. apply list_elem_of_here.
  - destruct (prototype_capabilities st && (url =? "capabilities")%string);
      split; try done; by intros [].
Qed.

Lemma on_vnc_update_session_own url w caps s st :
  sessions st !! url = Some s →
  on_vnc_update_session url w caps st
  = Ok (set_sessions (<[url := mkSession (win s) (options s) caps]> (sessions st)) st).
Proof. intros Hs. unfold on_vnc_update_session. by rewrite (sessions_get_own _ s). Qed.

Lemma on_vnc_update_session_nothing url w caps st :
  sessions st !! url = None → inherited url st = false →
  on_vnc_update_session url w caps st = Throw TypeError st.
Proof.
  intros Hs Hi. unfold on_vnc_update_session.
  by rewrite (proj2 (sessions_get_nothing url st) (conj Hs Hi)).
Qed.

(** The update listener either stores the capabilities in the own record
    of [url], or leaves the own properties alone. *)
Lemma on_vnc_update_session_sessions url w caps st :
  (∃ s, sessions st !! url = Some s ∧
        on_vnc_update_session url w caps st
        = Ok (set_sessions (<[url := mkSession (win s) (options s) caps]> (sessions st)) st)) ∨
  (sessions st !! url = None ∧
   sessions (state_of (on_vnc_update_session url w caps st)) = sessions st ∧
   args_sessions (state_of (on_vnc_update_session url w caps st)) = args_sessions st ∧
   windows (state_of (on_vnc_update_session url w caps st)) = windows st ∧
   mainTitle (state_of (on_vnc_update_session url w caps st)) = mainTitle st ∧
   hasSounds (state_of (on_vnc_update_session url w caps st)) = hasSounds st).
Proof.
  destruct (sessions st !! url) as [s|] eqn:Hs.
  - left. exists s. split; [done|]. by apply on_vnc_update_session_own.
  - right. split; [done|]. unfold on_vnc_update_session, sessions_get. rewrite Hs.
    destruct (sessions_proto st) as [r|], (record_field url) as [t|];
      try (by destruct t);
      unfold Object_prototype_get;
      repeat match goal with |- context [if ?b then _ else _] => destruct b end;
      try done; by destruct (sessions_proto st).
Qed.

(** ** The two window factories, as equations *)

Lemma createVncWindow_spec url options st :
  createVncWindow url options st
  = Ok (set_log
          (log st ++
             [ createWindow (length (windows st))
                 (mkWindowOptions logo (mainTitle st +:+ " - Connecting to " +:+ url)
                                  800 600 None None);
               newRFB (length (windows st)) url (rfb_options (default ∅ options));
               rfbCall (length (windows st)) RFB.windowResize ])
          (set_windows (windows st ++ [VncWindow url (default ∅ options)]) st)).
Proof.
  unfold createVncWindow, proc_createWindow, and_then, effect, win_emit; simpl.
  rewrite lookup_snoc; simpl. unfold caught, effect, set_log; simpl.
  by rewrite <-!(assoc_L (++)).
Qed.

Lemma createConnectionWindow_spec st :
  createConnectionWindow st
  = Ok (set_log
          (log st ++
             [ localeTranslatableFlat;
               createWindow (length (windows st))
                 (mkWindowOptions logo (mainTitle st) 400 300
                                  (Some "center") (Some false)) ])
          (set_windows (windows st ++ [ConnectionWindow initial_dialog]) st)).
Proof.
  unfold createConnectionWindow, proc_createWindow, and_then, effect, set_log; simpl.
  by rewrite <-!(assoc_L (++)).
Qed.

(** ** Every step, from what its parts do *)

#[local] Instance carries_preorder (I : App → Prop) : PreOrder (carries I).
Proof.
  split.
  - intros st HI. exact HI.
  - intros a b c Hab Hbc Ha. apply Hbc, Hab, Ha.
Qed.

Lemma vnc_win_on_Ok w url opts ev st : ∃ st', vnc_win_on w url opts ev st = Ok st'.
Proof.
  destruct ev; unfold vnc_win_on, sendKey; by eexists.
Qed.

(** On a VNC window, [win.emit] runs the listener of index.js, which never
    throws. *)
Lemma win_emit_vnc w url opts ev st :
  windows st !! w = Some (VncWindow url opts) →
  win_emit w ev st = vnc_win_on w url opts ev st.
Proof.
  intros Hw. unfold win_emit. rewrite Hw.
  destruct (vnc_win_on_Ok w url opts ev st) as [st' Hst']. rewrite Hst'.
  by apply caught_Ok.
Qed.

(** A relation that holds around each [plain] call, each listener of the
    three 'vnc:*-session' events, each keystroke in a dialog and each call
    of a window factory holds around every step. *)
Section Step.
Context (R : relation App) `{!PreOrder R}.
Hypothesis R_effect : ∀ st e, plain st e → R st (set_log (log st ++ [e]) st).
Hypothesis R_create : ∀ st url w opts,
  windows st !! w = Some (VncWindow url opts) →
  R st (state_of (on_vnc_create_session url w opts st)).
Hypothesis R_destroy : ∀ st url w, R st (state_of (on_vnc_destroy_session url w st)).
Hypothesis R_update : ∀ st url w caps opts,
  windows st !! w = Some (VncWindow url opts) →
  R st (state_of (on_vnc_update_session url w caps st)).
Hypothesis R_dialog : ∀ st w d d',
  windows st !! w = Some (ConnectionWindow d) →
  R st (set_windows (<[w := ConnectionWindow d']> (windows st)) st).
Hypothesis R_vnc : ∀ url options, mono R (createVncWindow url options).
Hypothesis R_conn : mono R createConnectionWindow.

Lemma R_and_then (m k : M) st :
  R st (state_of (m st)) →
  (∀ st1, m st = Ok st1 → R st1 (state_of (k st1))) →
  R st (state_of ((m ;; k) st)).
Proof.
  intros Hm Hk. unfold and_then. destruct (m st) as [st1|e st1]; [|done].
  etrans; [exact Hm|by apply Hk].
Qed.

Lemma R_caught (m : M) st : R st (state_of (m st)) → R st (state_of (caught m st)).
Proof.
  intros Hm. unfold caught. destruct (m st) as [st1|e st1]; [done|].
  etrans; [exact Hm|]. by apply R_effect.
Qed.

Lemma R_vnc_win_on st w url opts ev :
  windows st !! w = Some (VncWindow url opts) →
  R st (state_of (vnc_win_on w url opts ev st)).
Proof.
  intros Hw.
  destruct ev; unfold vnc_win_on, sendKey;
    try (apply R_effect; simpl; by eauto).
  - rewrite proc_emit_destroy. apply R_destroy.
  - rewrite proc_emit_create. by apply R_create.
  - reflexivity.
Qed.

Lemma R_win_emit st w ev : R st (state_of (win_emit w ev st)).
Proof.
  destruct (windows st !! w) as [[url opts|d]|] eqn:Hw.
  - rewrite (win_emit_vnc w url opts) by done. by apply R_vnc_win_on.
  - unfold win_emit. rewrite Hw. reflexivity.
  - unfold win_emit. rewrite Hw. reflexivity.
Qed.

Lemma R_vnc_rfb_on st w url opts ev :
  windows st !! w = Some (VncWindow url opts) →
  R st (state_of (vnc_rfb_on w url ev st)).
Proof.
  intros Hw. destruct ev; unfold vnc_rfb_on.
  - by apply R_effect.
  - unfold playSound. destruct (hasSounds st) eqn:Hs; [by apply R_effect|reflexivity].
  - apply R_effect; simpl; eauto.
  - by apply R_effect.
  - apply R_and_then; [by apply R_effect|].
    intros st1 [= <-]. apply R_effect; simpl; eauto.
  - apply R_and_then; [by apply R_effect|].
    intros st1 [= <-]. apply R_win_emit.
  - apply R_and_then.
    + unfold proc_emit, proc_on. apply R_caught. by eapply R_update.
    + intros st1 _. by apply R_effect.
  - by apply R_effect.
Qed.

Lemma step_mono s : mono R (step s).
Proof.
  intros st. destruct s as [w ev|w ev|w a| |a|]; unfold step.
  - apply R_win_emit.
  - unfold rfb_dispatch. destruct (windows st !! w) as [[url opts|d]|] eqn:Hw;
      [by eapply R_vnc_rfb_on|reflexivity..].
  - unfold dialog_dispatch. destruct (windows st !! w) as [[url opts|d]|] eqn:Hw;
      [reflexivity| |reflexivity].
    destruct a as [f v| |]; unfold dialog_action.
    + by eapply R_dialog.
    + apply R_effect; simpl; eauto.
    + apply R_and_then; [apply R_effect; simpl; eauto|].
      intros st1 _. apply R_vnc.
  - by apply R_effect.
  - destruct a; unfold menu_onclick;
      [apply R_conn|apply R_win_emit|by apply R_effect].
  - unfold proc_emit, proc_on. apply R_caught. by apply R_effect.
Qed.

Lemma run_mono l st : R st (run l st).
Proof.
  revert st. induction l as [|s l IH]; intros st; simpl; [reflexivity|].
  etrans; [apply step_mono|apply IH].
Qed.
End Step.

(** An invariant that the session map, its prototype and its persisted
    copy do not enter is kept by the three 'vnc:*-session' listeners. *)
Section Quiet.
Context (I : App → Prop).
Hypothesis I_effect : ∀ st e, plain st e → I st → I (set_log (log st ++ [e]) st).
Hypothesis I_sessions : ∀ st m, I st → I (set_sessions m st).
Hypothesis I_args : ∀ st a, I st → I (set_args_sessions a st).
Hypothesis I_proto : ∀ st r, I st → I (set_sessions_proto r st).
Hypothesis I_flag : ∀ st b, I st → I (set_prototype_capabilities b st).

Lemma quiet_create url w opts : keeps I (on_vnc_create_session url w opts).
Proof.
  intros st HI. rewrite on_vnc_create_session_any. simpl. apply I_args.
  destruct (sessions_set_cases url (mkSession w opts ∅) st) as [[_ ->]|[_ ->]];
    [by apply I_sessions|by apply I_proto].
Qed.

Lemma quiet_destroy url w : keeps I (on_vnc_destroy_session url w).
Proof.
  intros st HI. rewrite on_vnc_destroy_session_spec. simpl.
  by apply I_args, I_sessions.
Qed.

Lemma quiet_update url w caps : keeps I (on_vnc_update_session url w caps).
Proof.
  intros st HI. unfold on_vnc_update_session.
  destruct (sessions_get url st) as [s|r|t|]; simpl.
  - by apply I_sessions.
  - by apply I_proto.
  - destruct t; simpl;
      try (apply (I_effect st); [done|done]).
    apply (I_effect (set_prototype_capabilities true st)); [done|]. by apply I_flag.
  - done.
Qed.

End Quiet.

(** Such an invariant, when it holds once the tray is made and is kept by
    the dialogs and the two factories, holds in every reachable state. *)
Lemma run_register_inv (I : App → Prop) title sounds args l :
  I (set_log [makeApplication; localeTranslatableFlat; trayCreate]
       (mkApp title sounds ∅ args [] [] None false)) →
  (∀ st e, plain st e → I st → I (set_log (log st ++ [e]) st)) →
  (∀ st m, I st → I (set_sessions m st)) →
  (∀ st a, I st → I (set_args_sessions a st)) →
  (∀ st r, I st → I (set_sessions_proto r st)) →
  (∀ st b, I st → I (set_prototype_capabilities b st)) →
  (∀ st w d d', windows st !! w = Some (ConnectionWindow d) →
                I st → I (set_windows (<[w := ConnectionWindow d']> (windows st)) st)) →
  (∀ url options, keeps I (createVncWindow url options)) →
  keeps I createConnectionWindow →
  I (run l (register title sounds args)).
Proof.
  intros H0 He Hs Ha Hp Hf Hd Hv Hc.
  assert (I (register title sounds args)) as Hreg; [|revert Hreg; apply (run_mono (carries I))].
  - unfold register.
    do 3 (erewrite and_then_Ok by reflexivity).
    destruct args as [saved|].
    + by apply keeps_forEach.
    + by apply Hc.
  - done.
  - intros st url w opts _ HI. revert st HI.
    change (keeps I (on_vnc_create_session url w opts)). apply quiet_create; assumption.
  - intros st url w HI. revert st HI.
    change (keeps I (on_vnc_destroy_session url w)). apply quiet_destroy; assumption.
  - intros st url w caps opts _ HI. revert st HI.
    change (keeps I (on_vnc_update_session url w caps)). apply quiet_update; assumption.
  - done.
  - done.
  - done.
Qed.

(** ** The window closures only grow *)

#[local] Instance extends_preorder : PreOrder extends.
Proof.
  split.
  - by intros st.
  - intros a b c (?&?&?&Hab) (?&?&?&Hbc).
    split_and!; [congruence|congruence|lia|]. intros w url opts H'. eauto.
Qed.

Lemma extends_same st st' :
  mainTitle st' = mainTitle st → hasSounds st' = hasSounds st →
  windows st' = windows st → extends st st'.
Proof. intros ?? Hw. unfold extends. rewrite Hw. by split_and!. Qed.

Lemma extends_update url w caps st :
  extends st (state_of (on_vnc_update_session url w caps st)).
Proof.
  destruct (on_vnc_update_session_sessions url w caps st)
    as [(s & _ & ->)|(_ & _ & _ & Hw & Ht & Hs)]; by apply extends_same.
Qed.

Lemma extends_createVncWindow url options st :
  extends st (state_of (createVncWindow url options st)).
Proof.
  rewrite createVncWindow_spec. unfold extends; simpl.
  split_and!; [done|done|rewrite length_app; lia|].
  intros w u o H'. by apply lookup_app_l_Some.
Qed.

Lemma extends_createConnectionWindow st :
  extends st (state_of (createConnectionWindow st)).
Proof.
  rewrite createConnectionWindow_spec. unfold extends; simpl.
  split_and!; [done|done|rewrite length_app; lia|].
  intros w u o H'. by apply lookup_app_l_Some.
Qed.

Lemma mono_step s : mono extends (step s).
Proof.
  apply step_mono; try apply _.
  - intros st e _. by apply extends_same.
  - intros st url w opts _. rewrite on_vnc_create_session_any.
    destruct (sessions_set_cases url (mkSession w opts ∅) st) as [[_ ->]|[_ ->]];
      by apply extends_same.
  - intros st url w. rewrite on_vnc_destroy_session_spec. by apply extends_same.
  - intros st url w caps opts _. apply extends_update.
  - intros st w d d' Hw. unfold extends; simpl.
    split_and!; [done|done|by rewrite length_insert|].
    intros w' url opts H'. rewrite list_lookup_insert_ne; [done|congruence].
  - intros url options st. apply extends_createVncWindow.
  - intros st. apply extends_createConnectionWindow.
Qed.

Lemma run_extends l st : extends st (run l st).
Proof.
  revert st. induction l as [|s l IH]; intros st; simpl; [done|].
  etrans; [apply mono_step|apply IH].
Qed.

(** ** Every tracked session belongs to a window of the factory *)

Lemma sessions_wf_frame st st' :
  sessions st' = sessions st → extends st st' → sessions_wf st → sessions_wf st'.
Proof.
  intros Hs (_&_&_&Hw) Hwf url s. rewrite Hs. intros H'. by apply Hw, Hwf.
Qed.

Lemma keeps_wf_step ev : keeps sessions_wf (step ev).
Proof.
  apply (step_mono (carries sessions_wf)).
  - intros st e _. unfold carries. by apply sessions_wf_frame; [|apply extends_same].
  - intros st url w opts Hw Hwf. rewrite on_vnc_create_session_any.
    destruct (sessions_set_cases url (mkSession w opts ∅) st) as [[_ ->]|[_ ->]]; simpl.
    + intros url' s; simpl. rewrite lookup_insert. case_decide as Hu.
      * intros [= <-]. by subst.
      * apply Hwf.
    + exact Hwf.
  - intros st url w Hwf. rewrite on_vnc_destroy_session_spec. intros url' s; simpl.
    rewrite lookup_delete. case_decide; [done|apply Hwf].
  - intros st url w caps opts _ Hwf.
    destruct (on_vnc_update_session_sessions url w caps st)
      as [(s0 & Hs0 & ->)|(_ & Hs & _ & Hw & _)].
    + intros url' s; simpl. rewrite lookup_insert. case_decide as Hu.
      * intros [= <-]; simpl. subst. by apply Hwf.
      * apply Hwf.
    + intros url' s. rewrite Hs, Hw. apply Hwf.
  - intros st w d d' Hw Hwf url s Hs; simpl in *. apply Hwf in Hs.
    rewrite list_lookup_insert_ne; [done|congruence].
  - intros url options st. unfold carries.
    apply sessions_wf_frame; [|apply extends_createVncWindow].
    by rewrite createVncWindow_spec.
  - intros st. unfold carries.
    apply sessions_wf_frame; [|apply extends_createConnectionWindow].
    by rewrite createConnectionWindow_spec.
Qed.

Lemma register_sessions title sounds args :
  sessions (register title sounds args) = ∅ ∧
  args_sessions (register title sounds args) = args ∧
  sessions_proto (register title sounds args) = None ∧
  prototype_capabilities (register title sounds args) = false.
Proof.
  unfold register. do 3 (erewrite and_then_Ok by reflexivity).
  destruct args as [saved|].
  - apply (keeps_forEach
             (λ st, sessions st = ∅ ∧ args_sessions st = Some saved ∧
                    sessions_proto st = None ∧ prototype_capabilities st = false));
      [|done].
    intros url st. by rewrite createVncWindow_spec.
  - by rewrite createConnectionWindow_spec.
Qed.

Lemma register_sessions_wf title sounds args : sessions_wf (register title sounds args).
Proof.
  intros url s. destruct (register_sessions title sounds args) as [-> _].
  by rewrite lookup_empty.
Qed.

Lemma reachable_sessions_wf st : reachable st → sessions_wf st.
Proof.
  intros (title & sounds & args & l & ->).
  apply run_keeps; [intros s _; apply keeps_wf_step|apply register_sessions_wf].
Qed.

(** ['__proto__'] is never an own property of the session object. *)
Lemma keeps_no_own_proto ev : keeps (λ st, sessions st !! "__proto__" = None) (step ev).
Proof.
  apply (step_mono (carries (λ st, sessions st !! "__proto__" = None))).
  - intros st e _ HI. exact HI.
  - intros st url w opts _ HI. rewrite on_vnc_create_session_any.
    destruct (sessions_set_cases url (mkSession w opts ∅) st) as [[Hne ->]|[_ ->]]; simpl;
      [by rewrite lookup_insert_ne|done].
  - intros st url w HI. rewrite on_vnc_destroy_session_spec; simpl.
    rewrite lookup_delete. by case_decide.
  - intros st url w caps opts _ HI.
    destruct (on_vnc_update_session_sessions url w caps st)
      as [(s0 & Hs0 & ->)|(_ & -> & _)]; [|done].
    simpl. rewrite lookup_insert_ne; [done|]. intros ->. congruence.
  - intros st w d d' _ HI. exact HI.
  - intros url options st HI. by rewrite createVncWindow_spec.
  - intros st HI. by rewrite createConnectionWindow_spec.
Qed.

Lemma reachable_no_own_proto st : reachable st → sessions st !! "__proto__" = None.
Proof.
  intros (title & sounds & args & l & ->).
  apply (run_keeps (λ st, sessions st !! "__proto__" = None));
    [intros s _; apply keeps_no_own_proto|].
  destruct (register_sessions title sounds args) as [-> _]. apply lookup_empty.
Qed.

(** ** Restoring saved sessions *)

Lemma forEach_createVncWindow (saved : gmap string JsObj) urls st :
  ∃ st',
    forEach (λ url, createVncWindow url (saved !! url)) urls st = Ok st' ∧
    windows st' = windows st ++ ((λ url, VncWindow url (default ∅ (saved !! url))) <$> urls).
Proof.
  revert st. induction urls as [|url urls IH]; intros st; simpl.
  - exists st. by rewrite (right_id_L [] (++)).
  - erewrite and_then_Ok by apply createVncWindow_spec.
    edestruct IH as (st' & Hrun & Hw).
    exists st'. split; [exact Hrun|]. rewrite Hw. simpl. by rewrite <-(assoc_L (++)).
Qed.

(** Reading [args.sessions[url]] for the keys of [args.sessions] gives back
    its entries. *)
Lemma saved_entries (saved : gmap string JsObj) :
  (λ url, (url, default ∅ (saved !! url))) <$> (map_to_list saved).*1 = map_to_list saved.
Proof.
  rewrite <-list_fmap_compose. rewrite <-(list_fmap_id (map_to_list saved)) at 2.
  apply Forall_fmap_ext, Forall_forall. intros [url opts] Hin; simpl.
  apply elem_of_map_to_list in Hin. by rewrite Hin.
Qed.

(** ** Who writes capabilities *)

(** What a listener of a window event does to the own properties of the
    session object. *)
Lemma win_emit_sessions w ev st :
  sessions (state_of (win_emit w ev st)) = sessions st ∨
  (∃ url, sessions (state_of (win_emit w ev st)) = delete url (sessions st)) ∨
  (∃ url w' opts,
      sessions (state_of (win_emit w ev st)) = <[url := mkSession w' opts ∅]> (sessions st)).
Proof.
  destruct (windows st !! w) as [[url opts|d]|] eqn:Hw.
  - rewrite (win_emit_vnc w url opts) by done.
    destruct ev; unfold vnc_win_on, sendKey; try (by left).
    + rewrite proc_emit_destroy, on_vnc_destroy_session_spec. right; left. by exists url.
    + rewrite proc_emit_create, on_vnc_create_session_any.
      destruct (sessions_set_cases url (mkSession w opts ∅) st) as [[_ ->]|[_ ->]];
        [right; right; by exists url, w, opts|by left].
  - unfold win_emit. rewrite Hw. by left.
  - unfold win_emit. rewrite Hw. by left.
Qed.

(** The 'capabilities' listener of the client of a VNC window, as one
    equation: the update listener runs under the emitter's catch, then the
    capabilities are printed. *)
Lemma capabilities_step st w url opts caps :
  windows st !! w = Some (VncWindow url opts) →
  step (RfbEv w (Rcapabilities caps)) st
  = (caught (on_vnc_update_session url w caps) ;; effect (consoleWarn (JObj caps))) st.
Proof. intros Hw. unfold step, rfb_dispatch. by rewrite Hw. Qed.

(** Only a [capabilities] event of an RFB client stores capabilities: any
    other stimulus leaves the own properties of the session object as they
    are, removes one, or stores a record whose capabilities are [{}]. *)
Lemma step_sessions s st :
  is_capabilities s = false →
  sessions (state_of (step s st)) = sessions st ∨
  (∃ url, sessions (state_of (step s st)) = delete url (sessions st)) ∨
  (∃ url w opts,
      sessions (state_of (step s st)) = <[url := mkSession w opts ∅]> (sessions st)).
Proof.
  intros Hs.
  destruct s as [w ev|w ev|w a| |a|]; unfold step.
  - apply win_emit_sessions.
  - left. unfold rfb_dispatch.
    destruct (windows st !! w) as [[url opts|d]|] eqn:Hw; [|done..].
    destruct ev; try done.
    + simpl. unfold playSound. by destruct (hasSounds st).
    + unfold vnc_rfb_on. erewrite and_then_Ok by reflexivity.
      assert (windows (state_of (createNotification ("Connected to " +:+ url) st)) !! w
              = Some (VncWindow url opts)) as Hw' by done.
      cbn [state_of] in Hw'. by rewrite (win_emit_vnc w url opts).
  - left. unfold dialog_dispatch.
    destruct (windows st !! w) as [[url opts|d]|]; [done| |done].
    destruct a; try done. unfold dialog_action.
    erewrite and_then_Ok by reflexivity. unfold connect_callback.
    by rewrite createVncWindow_spec.
  - by left.
  - destruct a; unfold menu_onclick;
      [left; by rewrite createConnectionWindow_spec|apply win_emit_sessions|by left].
  - by left.
Qed.

(** A 'capabilities' event of a client leaves the own record of every URL
    but its own as it is. *)
Lemma capabilities_step_other st w caps url :
  capabilities_for url st (RfbEv w (Rcapabilities caps)) = false →
  sessions (state_of (step (RfbEv w (Rcapabilities caps)) st)) !! url = sessions st !! url.
Proof.
  unfold capabilities_for. intros Hc.
  destruct (windows st !! w) as [[u o|d]|] eqn:Hw;
    [|by unfold step, rfb_dispatch; rewrite Hw..].
  apply String.eqb_neq in Hc.
  rewrite (capabilities_step st w u o) by done. unfold and_then, caught.
  destruct (on_vnc_update_session_sessions u w caps st)
    as [(s0 & Hs0 & ->)|(_ & Hs & _)].
  - simpl. by rewrite lookup_insert_ne.
  - destruct (on_vnc_update_session u w caps st) as [st'|e st']; simpl in *; by rewrite Hs.
Qed.

(** As long as no 'capabilities' event for [url] arrives, a record of
    [url] keeps the capabilities [{}]. *)
Lemma keeps_fresh_capabilities url s st :
  capabilities_for url st s = false →
  fresh_capabilities url st → fresh_capabilities url (state_of (step s st)).
Proof.
  intros Hs Hf s'.
  destruct (is_capabilities s) eqn:Hc.
  - destruct s as [| w [] | | | |]; try done.
    rewrite capabilities_step_other by done. apply Hf.
  - destruct (step_sessions s st Hc) as [->|[[u ->]|(u & w & o & ->)]].
    + apply Hf.
    + rewrite lookup_delete. case_decide; [done|apply Hf].
    + rewrite lookup_insert. case_decide; [by intros [= <-]|apply Hf].
Qed.

Lemma run_fresh_capabilities url l st :
  no_capabilities_for url l st = true →
  fresh_capabilities url st → fresh_capabilities url (run l st).
Proof.
  revert st. induction l as [|s l IH]; intros st Hl Hf; [done|].
  simpl in Hl. apply andb_true_iff in Hl as [Hs Hl]. apply negb_true_iff in Hs.
  cbn [run]. apply IH; [done|]. by apply keeps_fresh_capabilities.
Qed.

(** The 'capabilities' event of the client of a window whose URL is
    tracked: the record of the URL gets the delivered capabilities, and
    they are printed. *)
Lemma capabilities_event st w url opts caps s :
  windows st !! w = Some (VncWindow url opts) →
  sessions st !! url = Some s →
  step (RfbEv w (Rcapabilities caps)) st
  = Ok (set_log (log st ++ [consoleWarn (JObj caps)])
          (set_sessions (<[url := mkSession (win s) (options s) caps]> (sessions st)) st)).
Proof.
  intros Hw Hs. rewrite (capabilities_step st w url opts) by done.
  unfold and_then. by rewrite (caught_Ok _ _ _ (on_vnc_update_session_own url w caps s st Hs)).
Qed.

(** The same event when [sessions[url]] is [undefined]: the emitter
    catches the TypeError of the update listener and prints it, the
    capabilities are printed, and nothing else changes. *)
Lemma capabilities_event_nothing st w url opts caps :
  windows st !! w = Some (VncWindow url opts) →
  sessions st !! url = None → inherited url st = false →
  step (RfbEv w (Rcapabilities caps)) st
  = Ok (set_log (log st ++ [consoleWarnExn TypeError; consoleWarn (JObj caps)]) st).
Proof.
  intros Hw Hs Hi. rewrite (capabilities_step st w url opts) by done.
  unfold and_then.
  rewrite (caught_Throw _ _ _ _ (on_vnc_update_session_nothing url w caps st Hs Hi)).
  unfold effect, set_log; simpl. by rewrite <-(assoc_L (++)).
Qed.

(** ** The scenario *)

Lemma connected_reachable : reachable connected.
Proof.
  exists "VNC", true, None, [DialogEv 0 Dialog.connect; WinEv 1 Wrender].
  vm_compute. reflexivity.
Qed.

Lemma connecting_reachable : reachable connecting.
Proof. by exists "VNC", true, None, [DialogEv 0 Dialog.connect]. Qed.

Lemma connecting_window :
  windows connecting !! 1%nat
  = Some (VncWindow demo_url
            {[ "credentials" := JObj {[ "username" := JStr EmptyString; "password" := JStr "abc123" ]} ]}).
Proof. reflexivity. Qed.

Lemma connected_window :
  windows connected !! 1%nat
  = Some (VncWindow demo_url
            {[ "credentials" := JObj {[ "username" := JStr EmptyString; "password" := JStr "abc123" ]} ]}).
Proof. reflexivity. Qed.

Lemma demo_url_not_proto : demo_url ≠ "__proto__".
Proof. done. Qed.


Lemma proto_connecting_window :
  windows proto_connecting !! 1%nat
  = Some (VncWindow "__proto__"
            {[ "credentials" := JObj {[ "username" := JStr EmptyString; "password" := JStr "abc123" ]} ]}).
Proof. reflexivity. Qed.

(** * The claims *)




(** C2.  On a VNC window, 'keydown' with code [c] calls
    [rfb.sendKey(0, c, true)], 'keyup' with code [c] calls
    [rfb.sendKey(0, c, false)], 'focus' calls [rfb.focus()], 'blur' calls
    [rfb.blur()] and 'resize' calls [rfb._windowResize()], on the RFB client
    of that window, and nothing else happens. *)
Theorem C2_window_events_are_forwarded st w url opts :
  windows st !! w = Some (VncWindow url opts) →
  (∀ c, step (WinEv w (Wkeydown c)) st
        = Ok (set_log (log st ++ [rfbCall w (RFB.sendKey 0 c true)]) st)) ∧
  (∀ c, step (WinEv w (Wkeyup c)) st
        = Ok (set_log (log st ++ [rfbCall w (RFB.sendKey 0 c false)]) st)) ∧
  step (WinEv w Wfocus) st = Ok (set_log (log st ++ [rfbCall w RFB.focus]) st) ∧
  step (WinEv w Wblur) st = Ok (set_log (log st ++ [rfbCall w RFB.blur]) st) ∧
  step (WinEv w Wresize) st = Ok (set_log (log st ++ [rfbCall w RFB.windowResize]) st).
Proof.
  intros Hw. unfold step, win_emit. rewrite Hw. by split_and!.
Qed.

Lemma C2_window_events_are_forwarded_witness :
  step (WinEv 1 (Wkeydown "KeyA")) connected
  = Ok (set_log (log connected ++ [rfbCall 1 (RFB.sendKey 0 "KeyA" true)]) connected).
Proof.
  apply (C2_window_events_are_forwarded connected 1 demo_url
           {[ "credentials" := JObj {[ "username" := JStr EmptyString; "password" := JStr "abc123" ]} ]}).
  reflexivity.
Defined.



(** C4.  When the RFB client of the VNC window [w] for URL [url] fires
    'disconnect', the notification 'Disconnected from url' is created and
    [win.destroy()] is called on [w], in this order.  The 'destroy' event
    the shell then emits on [w] runs the listener that emits
    'vnc:destroy-session', after which [url] is a key neither of the
    session map nor of the persisted [proc.args.sessions]. *)
Theorem C4_disconnect_ends_the_session st w url opts :
  windows st !! w = Some (VncWindow url opts) →
  ∃ st1 st2 saved,
    step (RfbEv w Rdisconnect) st = Ok st1 ∧
    log st1 = log st ++ [ notification logo (mainTitle st) ("Disconnected from " +:+ url);
                          winDestroy w ] ∧
    step (WinEv w Wdestroy) st1 = Ok st2 ∧
    st2 = state_of (proc_emit (Pvnc_destroy_session url w) st1) ∧
    sessions st2 !! url = None ∧
    args_sessions st2 = Some saved ∧ saved !! url = None.
Proof.
  intros Hw. do 3 eexists. split_and!.
  - simpl. unfold rfb_dispatch. rewrite Hw. reflexivity.
  - simpl. by rewrite <-(assoc_L (++)).
  - unfold step. rewrite (win_emit_vnc w url opts) by done.
    unfold vnc_win_on. rewrite proc_emit_destroy. apply on_vnc_destroy_session_spec.
  - by rewrite proc_emit_destroy, on_vnc_destroy_session_spec.
  - simpl. apply lookup_delete_eq.
  - reflexivity.
  - simpl. by rewrite lookup_fmap, lookup_delete_eq.
Qed.

Lemma C4_disconnect_ends_the_session_witness :
  sessions (run [RfbEv 1 Rdisconnect; WinEv 1 Wdestroy] connected) !! demo_url = None.
Proof.
  destruct (C4_disconnect_ends_the_session connected 1 demo_url _ connected_window)
    as (st1 & st2 & saved & H1 & _ & H2 & _ & H3 & _).
  cbn [run]. rewrite H1. cbn [state_of]. rewrite H2. exact H3.
Defined.

(** C5.  After the 'vnc:create-session' and after the
    'vnc:destroy-session' listener, [proc.args.sessions] is the map that
    sends each tracked URL to the connect options of its session, and holds
    nothing of its window or capabilities.  On registration with
    [args.sessions] present, the VNC window factory is called once per
    saved URL, with the options saved for it, and no connection dialog is
    opened; without it, one connection dialog is opened and the factory is
    not called. *)
Theorem C5_session_persistence :
  (∀ st url w opts, ∃ st',
      proc_emit (Pvnc_create_session url w opts) st = Ok st' ∧
      args_sessions st' = Some (options <$> sessions st')) ∧
  (∀ st url w, ∃ st',
      proc_emit (Pvnc_destroy_session url w) st = Ok st' ∧
      args_sessions st' = Some (options <$> sessions st')) ∧
  (∀ title sounds saved,
      vnc_windows (register title sounds (Some saved)) ≡ₚ map_to_list saved ∧
      connection_windows (register title sounds (Some saved)) = []) ∧
  (∀ title sounds,
      vnc_windows (register title sounds None) = [] ∧
      connection_windows (register title sounds None) = [initial_dialog]).
Proof.
  split_and!.
  - intros st url w opts. eexists. rewrite proc_emit_create.
    split; [apply on_vnc_create_session_any|]. simpl.
    by destruct (sessions_set_cases url (mkSession w opts ∅) st) as [[_ ->]|[_ ->]].
  - intros st url w. eexists. rewrite proc_emit_destroy.
    by split; [apply on_vnc_destroy_session_spec|].
  - intros title sounds saved. unfold register.
    do 3 (erewrite and_then_Ok by reflexivity).
    edestruct (forEach_createVncWindow saved (map_to_list saved).*1) as (st' & Hrun & Hw).
    rewrite Hrun. simpl in *.
    unfold vnc_windows, connection_windows. rewrite Hw. clear.
    split.
    + rewrite <-(saved_entries saved) at 2.
      induction ((map_to_list saved).*1) as [|url urls IH]; simpl; [done|].
      by rewrite IH.
    + induction ((map_to_list saved).*1) as [|url urls IH]; simpl; done.
  - done.
Qed.

(** C6.  Every call of the VNC window factory for [url] makes a window
    that did not exist before, with dimension 800x600 and the title
    '<application title> - Connecting to url', then constructs one RFB
    client on that window for [url], and calls nothing else but the first
    resize of that client.  Whatever happens afterwards, a later call makes
    a different window and the earlier one is still there. *)
Theorem C6_vnc_window_factory st url options :
  let w := length (windows st) in
  ∃ st',
    createVncWindow url options st = Ok st' ∧
    log st' = log st ++
      [ createWindow w (mkWindowOptions logo
                          (mainTitle st +:+ " - Connecting to " +:+ url)
                          800 600 None None);
        newRFB w url (rfb_options (default ∅ options));
        rfbCall w RFB.windowResize ] ∧
    windows st !! w = None ∧
    windows st' = windows st ++ [VncWindow url (default ∅ options)] ∧
    ∀ l url2 options2,
      length (windows (run l st')) ≠ w ∧
      ∃ st2,
        createVncWindow url2 options2 (run l st') = Ok st2 ∧
        windows st2 !! w = Some (VncWindow url (default ∅ options)) ∧
        windows st2 !! length (windows (run l st'))
        = Some (VncWindow url2 (default ∅ options2)).
Proof.
  intros w. eexists. split; [apply createVncWindow_spec|]. simpl.
  split_and!; [done|by apply lookup_ge_None|done|].
  intros l url2 options2.
  match goal with |- context [run l ?s] => set (st1 := s) in * end.
  destruct (run_extends l st1) as (_ & _ & Hlen & Hkeep).
  assert (windows (run l st1) !! w = Some (VncWindow url (default ∅ options))) as Hw.
  { apply Hkeep. subst st1 w; simpl. apply lookup_snoc. }
  split.
  - subst w st1. simpl in Hlen. rewrite length_app in Hlen. simpl in Hlen. lia.
  - eexists. split; [apply createVncWindow_spec|]. simpl. split.
    + by apply lookup_app_l_Some.
    + apply lookup_snoc.
Qed.

(** C7.  In the connection dialog, Connect first closes the dialog window
    and then calls the VNC window factory with the URL field of the dialog
    and the options [{credentials: {username, password}}] made of its
    username and password fields, as they are at that moment; Close closes
    the dialog window and does nothing else.  Typing in a field replaces
    that field and keeps the other two. *)
Theorem C7_connection_dialog st w d :
  windows st !! w = Some (ConnectionWindow d) →
  (∃ st1 st2,
      effect (winClose w) st = Ok st1 ∧
      createVncWindow (Dialog.url d)
        (Some {[ "credentials" :=
                   JObj {[ "username" := JStr (Dialog.username d);
                           "password" := JStr (Dialog.password d) ]} ]}) st1 = Ok st2 ∧
      step (DialogEv w Dialog.connect) st = Ok st2) ∧
  step (DialogEv w Dialog.close) st = Ok (set_log (log st ++ [winClose w]) st) ∧
  (∀ v, step (DialogEv w (Dialog.setState Dialog.Furl v)) st
        = Ok (set_windows
                (<[w := ConnectionWindow
                          (Dialog.mk v (Dialog.username d) (Dialog.password d))]>
                   (windows st)) st)) ∧
  (∀ v, step (DialogEv w (Dialog.setState Dialog.Fusername v)) st
        = Ok (set_windows
                (<[w := ConnectionWindow
                          (Dialog.mk (Dialog.url d) v (Dialog.password d))]>
                   (windows st)) st)) ∧
  (∀ v, step (DialogEv w (Dialog.setState Dialog.Fpassword v)) st
        = Ok (set_windows
                (<[w := ConnectionWindow
                          (Dialog.mk (Dialog.url d) (Dialog.username d) v)]>
                   (windows st)) st)).
Proof.
  intros Hw. unfold step, dialog_dispatch. rewrite Hw. split_and!; try done.
  do 2 eexists. split; [reflexivity|]. split; [apply createVncWindow_spec|].
  unfold dialog_action, connect_callback.
  erewrite and_then_Ok by reflexivity. apply createVncWindow_spec.
Qed.

Lemma C7_connection_dialog_witness :
  step (DialogEv 0 Dialog.close) started
  = Ok (set_log (log started ++ [winClose 0]) started).
Proof.
  apply (C7_connection_dialog started 0 initial_dialog). reflexivity.
Defined.




(** C9.  Right after 'vnc:create-session' the record made for the URL has
    the capabilities [{}]: it is the session of the URL or, for
    '__proto__', the prototype of the session object, in which case no
    session is registered.  As long as no 'capabilities' event of an RFB
    client for that URL arrives, the session of that URL, whenever there is
    one, still has the capabilities [{}], and its submenu in the tray menu
    holds Disconnect and the four power items, all four disabled.  A
    'capabilities' event of a client for that URL then stores the delivered
    capabilities through 'vnc:update-session', after which the four power
    items are disabled exactly when the delivered [power] is falsy. *)
Theorem C9_new_session_has_power_items_disabled st url w opts l :
  reachable st →
  ∃ st1,
    proc_emit (Pvnc_create_session url w opts) st = Ok st1 ∧
    (url ≠ "__proto__" → sessions st1 !! url = Some (mkSession w opts ∅)) ∧
    (url = "__proto__" →
     sessions st1 = sessions st ∧ sessions_proto st1 = Some (mkSession w opts ∅)) ∧
    (no_capabilities_for url l st1 = true →
     ∀ s, sessions (run l st1) !! url = Some s →
          capabilities s = ∅ ∧
          Item url None None
            (Some [ Item "Disconnect" None (Some (AwinEmit (win s) Wvnc_disconnect)) None;
                    Item "Send Ctrl+Alt+Del" (Some true) (Some (AwinEmit (win s) Wvnc_cad)) None;
                    Item "Send shutdown signal" (Some true)
                         (Some (AwinEmit (win s) Wvnc_shutdown)) None;
                    Item "Send reboot signal" (Some true)
                         (Some (AwinEmit (win s) Wvnc_reboot)) None;
                    Item "Send reset signal" (Some true)
                         (Some (AwinEmit (win s) Wvnc_reset)) None ])
          ∈ getSessionMenu (run l st1) ∧
          (λ i, (item_label i, item_disabled i)) <$> power_items (win s) (capabilities s)
          = power_labels true) ∧
    (∀ w' opts' caps,
        windows (run l st1) !! w' = Some (VncWindow url opts') →
        is_Some (sessions (run l st1) !! url) →
        ∃ st2 s, step (RfbEv w' (Rcapabilities caps)) (run l st1) = Ok st2 ∧
                 sessions st2 !! url = Some s ∧ capabilities s = caps ∧
                 (λ i, (item_label i, item_disabled i)) <$> power_items (win s) (capabilities s)
                 = power_labels (negb (truthy (power caps)))).
Proof.
  intros Hr. eexists. rewrite proc_emit_create.
  split; [by apply on_vnc_create_session_any|]. split_and!.
  - intros Hne. rewrite sessions_set_own by done. simpl. apply lookup_insert_eq.
  - by intros ->.
  - intros Hl s Hs.
    assert (capabilities s = ∅) as Hc.
    { revert s Hs. apply run_fresh_capabilities; [done|].
      intros s; simpl.
      destruct (sessions_set_cases url (mkSession w opts ∅) st) as [[_ ->]|[-> ->]]; simpl.
      - rewrite lookup_insert_eq. by intros [= <-].
      - by rewrite (reachable_no_own_proto st Hr). }
    split_and!; [done| |by rewrite Hc].
    unfold getSessionMenu. apply list_elem_of_fmap. exists (url, s).
    split; [|by apply elem_of_map_to_list].
    unfold session_entry, power_items. by rewrite Hc.
  - intros w' opts' caps Hw [s Hs]. do 2 eexists.
    split; [by eapply capabilities_event|]. split; [apply lookup_insert_eq|done].
Qed.

Lemma C9_new_session_has_power_items_disabled_witness :
  reachable connecting ∧
  no_capabilities_for demo_url [TrayClick; WinEv 1 Wfocus; RfbEv 1 Rbell]
    (state_of (proc_emit (Pvnc_create_session demo_url 1 ∅) connecting)) = true ∧
  ∃ st1,
    proc_emit (Pvnc_create_session demo_url 1 ∅) connecting = Ok st1 ∧
    sessions st1 !! demo_url = Some (mkSession 1 ∅ ∅) ∧
    ∀ s, sessions (run [TrayClick; WinEv 1 Wfocus; RfbEv 1 Rbell] st1) !! demo_url = Some s →
         capabilities s = ∅.
Proof.
  assert (reachable connecting) as Hr.
  { exists "VNC", true, None, [DialogEv 0 Dialog.connect]. vm_compute. reflexivity. }
  assert (no_capabilities_for demo_url [TrayClick; WinEv 1 Wfocus; RfbEv 1 Rbell]
            (state_of (proc_emit (Pvnc_create_session demo_url 1 ∅) connecting)) = true)
    as Hl by (vm_compute; reflexivity).
  assert (demo_url ≠ "__proto__") as Hne by done.
  split; [exact Hr|]. split; [exact Hl|].
  destruct (C9_new_session_has_power_items_disabled connecting demo_url 1 ∅
              [TrayClick; WinEv 1 Wfocus; RfbEv 1 Rbell] Hr)
    as (st1 & H1 & H2 & _ & H3 & _).
  exists st1. split; [exact H1|]. split; [exact (H2 Hne)|].
  intros s Hs. rewrite H1 in Hl. exact (proj1 (H3 Hl s Hs)).
Defined.




(** * Further properties of the listeners *)

(** ** One case per listener *)

(** Splits a goal about [step s st] into one goal per listener of index.js
    (and one per window that has none). *)
Ltac step_cases s st :=
  let w := fresh "w" in let ev := fresh "ev" in let a := fresh "a" in
  let url := fresh "url" in let opts := fresh "opts" in let d := fresh "d" in
  let Hw := fresh "Hw" in
  destruct s as [w ev|w ev|w a| |a|];
  [ unfold step;
    destruct (windows st !! w) as [[url opts|d]|] eqn:Hw;
    [ rewrite (win_emit_vnc w url opts) by exact Hw; destruct ev
    | unfold win_emit; rewrite Hw
    | unfold win_emit; rewrite Hw ]
  | unfold step, rfb_dispatch;
    destruct (windows st !! w) as [[url opts|d]|] eqn:Hw; [destruct ev|..]
  | unfold step, dialog_dispatch;
    destruct (windows st !! w) as [[url opts|d]|] eqn:Hw; [|destruct a|]
  | unfold step, tray_onclick
  | destruct a as [|w ev|]; unfold step, menu_onclick;
    [ | destruct (windows st !! w) as [[url opts|d]|] eqn:Hw;
        [ rewrite (win_emit_vnc w url opts) by exact Hw; destruct ev
        | unfold win_emit; rewrite Hw
        | unfold win_emit; rewrite Hw ]
      | ]
  | unfold step ].

(** What a step does to the own properties of the session object and to
    their persisted copy: nothing; or the copy is made anew, as after
    'vnc:create-session' and 'vnc:destroy-session'; or the capabilities of
    one tracked URL are replaced. *)
Lemma step_bookkeeping s st :
  (sessions (state_of (step s st)) = sessions st ∧
   args_sessions (state_of (step s st)) = args_sessions st) ∨
  args_sessions (state_of (step s st))
  = Some (options <$> sessions (state_of (step s st))) ∨
  (∃ url s0 caps,
      sessions st !! url = Some s0 ∧
      sessions (state_of (step s st))
      = <[url := mkSession (win s0) (options s0) caps]> (sessions st) ∧
      args_sessions (state_of (step s st)) = args_sessions st).
Proof.
  step_cases s st;
    try (by left);
    try (unfold vnc_win_on; rewrite proc_emit_destroy, on_vnc_destroy_session_spec;
         right; by left);
    try (unfold vnc_win_on; rewrite proc_emit_create, on_vnc_create_session_any;
         right; left; simpl;
         by destruct (sessions_set_cases url (mkSession w opts ∅) st) as [[_ ->]|[_ ->]]).
  - left. simpl. unfold playSound. by destruct (hasSounds st).
  - left. unfold vnc_rfb_on. erewrite and_then_Ok by reflexivity.
    assert (windows (state_of (createNotification ("Connected to " +:+ url) st)) !! w
            = Some (VncWindow url opts)) as Hw' by done.
    cbn [state_of] in Hw'. by rewrite (win_emit_vnc w url opts).
  - unfold vnc_rfb_on, proc_emit, proc_on.
    destruct (on_vnc_update_session_sessions url w caps st)
      as [(s0 & Hs0 & Hu)|(_ & Hs & Ha & _)].
    + right; right. exists url, s0, caps. split; [done|].
      unfold and_then. by rewrite (caught_Ok _ _ _ Hu).
    + left. unfold and_then, caught.
      by destruct (on_vnc_update_session url w caps st) as [st'|e st']; simpl in *.
  - left. unfold dialog_action, connect_callback.
    erewrite and_then_Ok by reflexivity. by rewrite createVncWindow_spec.
Qed.

(** ** The persisted copy follows the session map *)

Lemma fmap_options_update (m : gmap string Session) url s caps :
  m !! url = Some s →
  options <$> <[url := mkSession (win s) (options s) caps]> m = options <$> m.
Proof.
  intros Hs. rewrite fmap_insert. simpl. apply insert_id.
  by rewrite lookup_fmap, Hs.
Qed.

Lemma keeps_persisted args s : keeps (persisted args) (step s).
Proof.
  intros st HP.
  destruct (step_bookkeeping s st)
    as [[Hs Ha]|[Ha|(url & s0 & caps & H0 & Hs & Ha)]].
  - unfold persisted. by rewrite Hs, Ha.
  - by left.
  - destruct HP as [HP|[He _]]; [|by rewrite He in H0].
    left. by rewrite Hs, Ha, fmap_options_update.
Qed.

Lemma register_bookkeeping title sounds args :
  sessions (register title sounds args) = ∅ ∧
  args_sessions (register title sounds args) = args.
Proof. destruct (register_sessions title sounds args) as (? & ? & _). by split. Qed.

(** X1.  At every moment [proc.args.sessions] is the map from each tracked
    URL to the connect options of its session, except before the first
    session is created, when the session map is empty and
    [proc.args.sessions] is still what the application was launched with.
    Capabilities updates never disturb it. *)
Theorem X1_persisted_copy_follows_sessions title sounds args l :
  args_sessions (run l (register title sounds args))
  = Some (options <$> sessions (run l (register title sounds args))) ∨
  (sessions (run l (register title sounds args)) = ∅ ∧
   args_sessions (run l (register title sounds args)) = args).
Proof.
  apply (run_keeps (persisted args)); [intros s _; apply keeps_persisted|].
  right. apply register_bookkeeping.
Qed.



(** ** Which listeners throw *)

Lemma new_effects_app st st' es : log st' = log st ++ es → new_effects st st' = es.
Proof. unfold new_effects. intros ->. by rewrite drop_app_length. Qed.

Lemma new_effects_same st st' : log st' = log st → new_effects st st' = [].
Proof. unfold new_effects. intros ->. by rewrite drop_all. Qed.

(** Every stimulus is handled: the emitter of the window and of the
    application catch what their listeners throw, and the listeners of the
    RFB client, of the dialog and of the menus throw nothing. *)
Lemma step_Ok s st : ∃ st', step s st = Ok st'.
Proof.
  step_cases s st; try (by eexists);
    try (unfold vnc_win_on, sendKey; by eexists).
  - unfold vnc_rfb_on, playSound. destruct (hasSounds st); by eexists.
  - unfold vnc_rfb_on. erewrite and_then_Ok by reflexivity.
    assert (windows (state_of (createNotification ("Connected to " +:+ url) st)) !! w
            = Some (VncWindow url opts)) as Hw' by done.
    cbn [state_of] in Hw'. rewrite (win_emit_vnc w url opts) by done. by eexists.
  - unfold vnc_rfb_on, proc_emit, proc_on, and_then, caught.
    destruct (on_vnc_update_session url w caps st); by eexists.
  - unfold dialog_action, connect_callback.
    erewrite and_then_Ok by reflexivity. rewrite createVncWindow_spec. by eexists.
Qed.

(** The update listener throws only when the lookup finds nothing. *)
Lemma on_vnc_update_session_found url w caps st :
  sessions_get url st ≠ Found_nothing →
  ∃ st', on_vnc_update_session url w caps st = Ok st'.
Proof.
  unfold on_vnc_update_session.
  destruct (sessions_get url st) as [s|r|[]|]; intros Hg; [by eexists..|done].
Qed.

(** Brings [new_effects st (state_of (step s st))] to the list of the calls
    made, one listener at a time. *)
Ltac step_effects s st :=
  step_cases s st;
  unfold vnc_win_on, vnc_rfb_on, dialog_action, connect_callback, sendKey,
    createNotification, setTitle, playSound;
  rewrite ?proc_emit_destroy, ?proc_emit_create;
  rewrite ?on_vnc_destroy_session_spec, ?on_vnc_create_session_any;
  repeat match goal with
         | |- context [sessions_set ?u ?r ?s] =>
             destruct (sessions_set_cases u r s) as [[_ ->]|[_ ->]]
         end;
  try (erewrite (and_then_Ok _ (createVncWindow _ _)) by reflexivity;
       rewrite createVncWindow_spec);
  rewrite ?createConnectionWindow_spec;
  unfold proc_emit, proc_on, and_then, caught; cbv beta;
  unfold on_vnc_update_session;
  repeat match goal with
         | |- context [sessions_get ?u ?s] => destruct (sessions_get u s) as [?|?|[]|]
         end;
  unfold effect, win_emit, throw; simpl;
  repeat match goal with
         | H : windows st !! _ = _ |- _ => rewrite H
         end;
  unfold caught, vnc_win_on, effect;
  repeat match goal with
         | |- context [if hasSounds ?s then _ else _] => destruct (hasSounds s)
         end;
  simpl;
  first [ rewrite (new_effects_same st) by reflexivity
        | erewrite (new_effects_app st)
            by (simpl; rewrite <-?(assoc_L (++)); reflexivity)
        | idtac ].

(** What a step prints of a caught exception: the TypeError of the update
    listener, and only when the lookup found nothing. *)
Lemma step_consoleWarnExn s st e :
  consoleWarnExn e ∈ new_effects st (state_of (step s st)) →
  e = TypeError ∧
  ∃ w caps url opts,
    s = RfbEv w (Rcapabilities caps) ∧
    windows st !! w = Some (VncWindow url opts) ∧
    sessions_get url st = Found_nothing.
Proof.
  destruct (is_capabilities s) eqn:Hc.
  - destruct s as [|w []| | | |]; try discriminate.
    unfold step, rfb_dispatch.
    destruct (windows st !! w) as [[url opts|d]|] eqn:Hw;
      [|rewrite (new_effects_same st) by reflexivity; intros Hin;
        by apply elem_of_nil in Hin..].
    unfold vnc_rfb_on, proc_emit, proc_on, and_then, caught; cbv beta.
    unfold on_vnc_update_session.
    destruct (sessions_get url st) as [?|?|[]|] eqn:Hg;
      unfold effect, throw; simpl;
      (erewrite (new_effects_app st)
         by (simpl; rewrite <-?(assoc_L (++)); reflexivity));
      intros Hin;
      repeat (apply elem_of_cons in Hin as [Hin|Hin]; [try discriminate|]);
      try (by apply elem_of_nil in Hin).
    destruct e. split; [done|]. by exists w, caps, url, opts.
  - step_effects s st; intros Hin;
      repeat (apply elem_of_cons in Hin as [Hin|Hin]; [try discriminate|]);
      try (by apply elem_of_nil in Hin).
    all: discriminate.
Qed.

(** X11.  No exception of a listener of index.js escapes: every stimulus
    is handled.  The only listener that throws is that of
    'vnc:update-session': it throws exactly when [sessions[url]] is
    [undefined], that is when the URL is neither tracked nor inherited
    through the prototype chain of the session object; the exception is a
    TypeError and the state is left as it was.  The emitter catches it and
    prints it, so that a caught exception is printed exactly by a
    'capabilities' event of a client whose URL is neither tracked nor
    inherited. *)
Theorem X11_only_untracked_capabilities_throw s st :
  (∃ st', step s st = Ok st') ∧
  (∀ url w caps,
      (sessions_get url st = Found_nothing ↔
       sessions st !! url = None ∧ inherited url st = false) ∧
      (sessions_get url st = Found_nothing →
       on_vnc_update_session url w caps st = Throw TypeError st) ∧
      (sessions_get url st ≠ Found_nothing →
       ∃ st', on_vnc_update_session url w caps st = Ok st')) ∧
  (∀ e, consoleWarnExn e ∈ new_effects st (state_of (step s st)) ↔
        e = TypeError ∧
        ∃ w caps url opts,
          s = RfbEv w (Rcapabilities caps) ∧
          windows st !! w = Some (VncWindow url opts) ∧
          sessions st !! url = None ∧ inherited url st = false).
Proof.
  split_and!.
  - apply step_Ok.
  - intros url w caps. split_and!.
    + apply sessions_get_nothing.
    + intros Hg. apply sessions_get_nothing in Hg as [Hs Hi].
      by apply on_vnc_update_session_nothing.
    + apply on_vnc_update_session_found.
  - intros e. split.
    + intros Hin. apply step_consoleWarnExn in Hin
        as (-> & w & caps & url & opts & -> & Hw & Hg).
      apply sessions_get_nothing in Hg as [Hs Hi].
      split; [done|]. by exists w, caps, url, opts.
    + intros (-> & w & caps & url & opts & -> & Hw & Hs & Hi).
      rewrite (capabilities_event_nothing st w url opts caps Hw Hs Hi).
      erewrite (new_effects_app st) by reflexivity. apply list_elem_of_here.
Qed.

(** ** Sessions are keyed by the URL alone *)

Lemma render_event st w url opts :
  windows st !! w = Some (VncWindow url opts) →
  url ≠ "__proto__" →
  step (WinEv w Wrender) st
  = Ok (set_args_sessions
          (Some (options <$> <[url := mkSession w opts ∅]> (sessions st)))
          (set_sessions (<[url := mkSession w opts ∅]> (sessions st)) st)).
Proof.
  intros Hw Hne. unfold step. rewrite (win_emit_vnc w url opts) by done.
  unfold vnc_win_on. rewrite proc_emit_create. by apply on_vnc_create_session_spec.
Qed.

Lemma render_event_proto st w opts :
  windows st !! w = Some (VncWindow "__proto__" opts) →
  step (WinEv w Wrender) st
  = Ok (set_args_sessions (Some (options <$> sessions st))
          (set_sessions_proto (Some (mkSession w opts ∅)) st)).
Proof.
  intros Hw. unfold step. rewrite (win_emit_vnc w "__proto__" opts) by done.
  unfold vnc_win_on. rewrite proc_emit_create. apply on_vnc_create_session_proto.
Qed.

Lemma destroy_event st w url opts :
  windows st !! w = Some (VncWindow url opts) →
  step (WinEv w Wdestroy) st
  = Ok (set_args_sessions
          (Some (options <$> delete url (sessions st)))
          (set_sessions (delete url (sessions st)) st)).
Proof.
  intros Hw. unfold step. rewrite (win_emit_vnc w url opts) by done.
  unfold vnc_win_on. rewrite proc_emit_destroy. apply on_vnc_destroy_session_spec.
Qed.

Lemma menu_event st w url opts ev :
  windows st !! w = Some (VncWindow url opts) →
  step (MenuClick (AwinEmit w ev)) st = vnc_win_on w url opts ev st.
Proof. intros Hw. unfold step, menu_onclick. by apply win_emit_vnc. Qed.

(** X7.  The session map knows a connection by its URL only, and the
    'vnc:destroy-session' listener ignores the window it is given.  When two
    VNC windows on the same URL (other than '__proto__') are rendered, the one rendered last owns the session; the 'destroy' of the
    first then leaves the URL untracked, with no submenu and no persisted
    entry, although nothing was called on the second window or on its
    client: none of the three listeners destroys a window or disconnects a
    client, and the closure of the second window is as it was. *)
Theorem X7_sessions_are_keyed_by_url_only st w1 w2 url o1 o2 :
  windows st !! w1 = Some (VncWindow url o1) →
  windows st !! w2 = Some (VncWindow url o2) →
  url ≠ "__proto__" →
  sessions (run [WinEv w1 Wrender; WinEv w2 Wrender] st) !! url
  = Some (mkSession w2 o2 ∅) ∧
  sessions (run [WinEv w1 Wrender; WinEv w2 Wrender; WinEv w1 Wdestroy] st) !! url
  = None ∧
  windows (run [WinEv w1 Wrender; WinEv w2 Wrender; WinEv w1 Wdestroy] st) = windows st ∧
  log (run [WinEv w1 Wrender; WinEv w2 Wrender; WinEv w1 Wdestroy] st) = log st ∧
  (∀ i, i ∈ getSessionMenu (run [WinEv w1 Wrender; WinEv w2 Wrender; WinEv w1 Wdestroy] st) →
        item_label i ≠ url) ∧
  ∃ saved,
    args_sessions (run [WinEv w1 Wrender; WinEv w2 Wrender; WinEv w1 Wdestroy] st)
    = Some saved ∧
    saved !! url = None.
Proof.
  intros H1 H2 Hne. cbn [run].
  rewrite (render_event st w1 url o1 H1 Hne). cbn [state_of].
  erewrite (render_event _ w2 url o2) by first [exact H2|exact Hne]. cbn [state_of].
  erewrite (destroy_event _ w1 url o1) by exact H1. cbn [state_of].
  split_and!.
  - simpl. apply lookup_insert_eq.
  - simpl. apply lookup_delete_eq.
  - done.
  - done.
  - intros i Hi. unfold getSessionMenu in Hi.
    apply list_elem_of_fmap in Hi as ([u s] & -> & Hi).
    apply elem_of_map_to_list in Hi. simpl in *. intros ->.
    by rewrite lookup_delete_eq in Hi.
  - eexists. split; [reflexivity|]. by rewrite lookup_fmap, lookup_delete_eq.
Qed.

Lemma twice_windows :
  windows twice !! 1%nat = Some (VncWindow demo_url demo_options) ∧
  windows twice !! 3%nat = Some (VncWindow demo_url demo_options).
Proof. split; vm_compute; reflexivity. Qed.

Lemma X7_sessions_are_keyed_by_url_only_witness :
  sessions (run [WinEv 1 Wrender; WinEv 3 Wrender; WinEv 1 Wdestroy] twice) !! demo_url
  = None ∧
  log (run [WinEv 1 Wrender; WinEv 3 Wrender; WinEv 1 Wdestroy] twice) = log twice.
Proof.
  destruct (X7_sessions_are_keyed_by_url_only twice 1 3 demo_url _ _
              (proj1 twice_windows) (proj2 twice_windows) demo_url_not_proto)
    as (_ & H1 & _ & H2 & _).
  by split.
Defined.

(** X8.  The 'vnc:update-session' listener ignores its window argument
    too: with two VNC windows rendered on the same URL (other than
    '__proto__'), the capabilities reported by the client of the first are
    stored in the session that holds the second window.  The power items,
    enabled when the delivered [power] is truthy, act on the client of the
    second window. *)
Theorem X8_capabilities_land_on_the_url st wA wB url oA oB caps :
  windows st !! wA = Some (VncWindow url oA) →
  windows st !! wB = Some (VncWindow url oB) →
  url ≠ "__proto__" →
  ∃ st',
    Ok st' = step (RfbEv wA (Rcapabilities caps))
               (run [WinEv wA Wrender; WinEv wB Wrender] st) ∧
    sessions st' !! url = Some (mkSession wB oB caps) ∧
    session_entry url (mkSession wB oB caps) ∈ getSessionMenu st' ∧
    Item "Send reboot signal" (Some (negb (truthy (power caps))))
         (Some (AwinEmit wB Wvnc_reboot)) None
    ∈ power_items wB caps ∧
    step (MenuClick (AwinEmit wB Wvnc_reboot)) st'
    = Ok (set_log (log st' ++ [rfbCall wB RFB.machineReboot]) st').
Proof.
  intros HA HB Hne. cbn [run].
  rewrite (render_event st wA url oA HA Hne). cbn [state_of].
  erewrite (render_event _ wB url oB) by first [exact HB|exact Hne]. cbn [state_of].
  eexists. split.
  - symmetry. eapply capabilities_event; [exact HA|]. simpl. apply lookup_insert_eq.
  - split_and!.
    + simpl. apply lookup_insert_eq.
    + unfold getSessionMenu. apply list_elem_of_fmap.
      exists (url, mkSession wB oB caps). split; [done|].
      apply elem_of_map_to_list. simpl. apply lookup_insert_eq.
    + unfold power_items. do 2 apply list_elem_of_further. apply list_elem_of_here.
    + erewrite menu_event by exact HB. reflexivity.
Qed.

Lemma X8_capabilities_land_on_the_url_witness :
  ∃ st',
    Ok st' = step (RfbEv 1 (Rcapabilities {[ "power" := JBool true ]}))
               (run [WinEv 1 Wrender; WinEv 3 Wrender] twice) ∧
    win <$> sessions st' !! demo_url = Some 3%nat.
Proof.
  destruct (X8_capabilities_land_on_the_url twice 1 3 demo_url _ _
              {[ "power" := JBool true ]}
              (proj1 twice_windows) (proj2 twice_windows) demo_url_not_proto)
    as (st' & H1 & H2 & _).
  exists st'. split; [exact H1|]. by rewrite H2.
Defined.

(** X15.  The options the dialog passes on, credentials included, are kept:
    once the window made by Connect is rendered, the session of the typed
    URL holds the username and password, and so does the persisted
    [proc.args.sessions].  This holds for every typed URL but '__proto__',
    for which nothing is tracked and nothing persisted. *)
Theorem X15_credentials_are_persisted st w d :
  windows st !! w = Some (ConnectionWindow d) →
  (Dialog.url d ≠ "__proto__" →
   ∃ saved,
     args_sessions (run [DialogEv w Dialog.connect; WinEv (length (windows st)) Wrender] st)
     = Some saved ∧
     saved !! Dialog.url d
     = Some {[ "credentials" :=
                 JObj {[ "username" := JStr (Dialog.username d);
                         "password" := JStr (Dialog.password d) ]} ]} ∧
     sessions (run [DialogEv w Dialog.connect; WinEv (length (windows st)) Wrender] st)
       !! Dialog.url d
     = Some (mkSession (length (windows st))
               {[ "credentials" :=
                    JObj {[ "username" := JStr (Dialog.username d);
                            "password" := JStr (Dialog.password d) ]} ]} ∅)) ∧
  (Dialog.url d = "__proto__" →
   sessions (run [DialogEv w Dialog.connect; WinEv (length (windows st)) Wrender] st)
   = sessions st ∧
   args_sessions (run [DialogEv w Dialog.connect; WinEv (length (windows st)) Wrender] st)
   = Some (options <$> sessions st)).
Proof.
  intros Hw. cbn [run].
  assert (step (DialogEv w Dialog.connect) st
          = createVncWindow (Dialog.url d) (Some (credentials_options d))
              (set_log (log st ++ [winClose w]) st)) as ->.
  { unfold step, dialog_dispatch. rewrite Hw. reflexivity. }
  rewrite createVncWindow_spec. cbn [state_of]. split.
  - intros Hne.
    erewrite render_event by first [simpl; apply lookup_snoc|exact Hne]. cbn [state_of].
    eexists. split; [reflexivity|]. split.
    + rewrite lookup_fmap. simpl. by rewrite lookup_insert_eq.
    + simpl. by rewrite lookup_insert_eq.
  - intros Heq. rewrite Heq.
    erewrite render_event_proto by (simpl; apply lookup_snoc). by cbn [state_of].
Qed.

Lemma X15_credentials_are_persisted_witness :
  ∃ saved,
    args_sessions (run [DialogEv 0 Dialog.connect; WinEv 1 Wrender] started) = Some saved ∧
    saved !! demo_url = Some demo_options.
Proof.
  assert (windows started !! 0%nat = Some (ConnectionWindow initial_dialog)) as Hw
    by (vm_compute; reflexivity).
  assert (Dialog.url initial_dialog ≠ "__proto__") as Hne by done.
  destruct (proj1 (X15_credentials_are_persisted started 0 initial_dialog Hw) Hne)
    as (saved & H1 & H2 & _).
  exists saved. by split.
Defined.

(** ** The tray menu drives the client of the session's window *)

(** X3.  In every reachable state the five items of a session's submenu
    act on the RFB client of the window stored in that session: Disconnect
    calls [disconnect()], and the power items call [sendCtrlAltDel()],
    [machineShutdown()], [machineReboot()] and [machineReset()], each
    through the 'vnc:*' event of the same name, and nothing else happens. *)
Theorem X3_menu_items_call_the_session_client st url s :
  reachable st →
  sessions st !! url = Some s →
  ∃ a0 a1 a2 a3 a4,
    item_onclick <$> default [] (item_items (session_entry url s))
    = [Some a0; Some a1; Some a2; Some a3; Some a4] ∧
    step (MenuClick a0) st = Ok (set_log (log st ++ [rfbCall (win s) RFB.disconnect]) st) ∧
    step (MenuClick a1) st = Ok (set_log (log st ++ [rfbCall (win s) RFB.sendCtrlAltDel]) st) ∧
    step (MenuClick a2) st = Ok (set_log (log st ++ [rfbCall (win s) RFB.machineShutdown]) st) ∧
    step (MenuClick a3) st = Ok (set_log (log st ++ [rfbCall (win s) RFB.machineReboot]) st) ∧
    step (MenuClick a4) st = Ok (set_log (log st ++ [rfbCall (win s) RFB.machineReset]) st).
Proof.
  intros Hr Hs. apply reachable_sessions_wf in Hr. apply Hr in Hs.
  do 5 eexists. split; [reflexivity|].
  split_and!; by erewrite menu_event by exact Hs.
Qed.

Lemma X3_menu_items_call_the_session_client_witness :
  step (MenuClick (AwinEmit 1 Wvnc_reboot)) connected
  = Ok (set_log (log connected ++ [rfbCall 1 RFB.machineReboot]) connected).
Proof.
  assert (sessions connected !! demo_url = Some (mkSession 1 demo_options ∅))
    as Hs by (vm_compute; reflexivity).
  destruct (X3_menu_items_call_the_session_client connected demo_url _
              connected_reachable Hs)
    as (a0 & a1 & a2 & a3 & a4 & Ha & _ & _ & _ & H3 & _).
  injection Ha as _ _ _ <- _. exact H3.
Defined.

(** ** One RFB client per VNC window *)

Lemma clients_plain st e l : plain st e → clients (l ++ [e]) = clients l.
Proof.
  intros Hp. unfold clients. rewrite omap_app. destruct e; simpl in *;
    by rewrite ?(right_id_L [] (++)).
Qed.

Lemma closures_from_app n ws ws' :
  closures_from n (ws ++ ws')
  = closures_from n ws ++ closures_from (n + length ws) ws'.
Proof.
  revert n. induction ws as [|c ws IH]; intros n; simpl.
  - by rewrite Nat.add_0_r.
  - rewrite IH, Nat.add_succ_r. by destruct c.
Qed.

Lemma closures_from_typing n ws w d d' :
  ws !! w = Some (ConnectionWindow d) →
  closures_from n (<[w := ConnectionWindow d']> ws) = closures_from n ws.
Proof.
  revert n w. induction ws as [|c ws IH]; intros n w Hw; [done|].
  destruct w as [|w]; simpl in *.
  - by injection Hw as ->.
  - rewrite (IH _ _ Hw). done.
Qed.

(** X4.  At every moment the RFB clients that were constructed are, in
    order, exactly the VNC windows the factory made: one client per window,
    on that window, for the window's URL, with the window's options over
    the default [shared: true].  No listener constructs a client, and
    neither typing in a dialog nor opening one changes that. *)
Theorem X4_one_client_per_vnc_window title sounds args l :
  clients (log (run l (register title sounds args)))
  = closures_from 0 (windows (run l (register title sounds args))).
Proof.
  apply (run_register_inv
           (λ st, clients (log st) = closures_from 0 (windows st))); simpl.
  - done.
  - intros st e Hp HI. by rewrite (clients_plain st).
  - done.
  - done.
  - done.
  - done.
  - intros st w d d' Hw HI. by rewrite (closures_from_typing _ _ _ d).
  - intros url options st HI. rewrite createVncWindow_spec; simpl.
    unfold clients in *. rewrite omap_app, HI, closures_from_app. done.
  - intros st HI. rewrite createConnectionWindow_spec; simpl.
    unfold clients in *. rewrite omap_app, HI, closures_from_app; simpl.
    done.
Qed.

(** ** Every window comes from a factory *)

Lemma created_plain st e l : plain st e → created (l ++ [e]) = created l.
Proof.
  intros Hp. unfold created. rewrite omap_app. destruct e; simpl in *;
    by rewrite ?(right_id_L [] (++)).
Qed.

Lemma created_from_app title n ws ws' :
  created_from title n (ws ++ ws')
  = created_from title n ws ++ created_from title (n + length ws) ws'.
Proof.
  revert n. induction ws as [|c ws IH]; intros n; simpl.
  - by rewrite Nat.add_0_r.
  - by rewrite IH, Nat.add_succ_r.
Qed.

Lemma created_from_typing title n ws w d d' :
  ws !! w = Some (ConnectionWindow d) →
  created_from title n (<[w := ConnectionWindow d']> ws) = created_from title n ws.
Proof.
  revert n w. induction ws as [|c ws IH]; intros n w Hw; [done|].
  destruct w as [|w]; simpl in *.
  - by injection Hw as ->.
  - by rewrite (IH _ _ Hw).
Qed.

(** X13.  At every moment the windows asked of the shell are, in order,
    exactly the window closures: a VNC window was asked for with dimension
    800x600 and the title '<title> - Connecting to <url>', a connection
    dialog with dimension 400x300, centered, titled with the application
    title and not sessionable; all carry the application's icon.  No
    listener other than the two factories makes a window. *)
Theorem X13_windows_come_from_the_factories title sounds args l :
  created (log (run l (register title sounds args)))
  = created_from title 0 (windows (run l (register title sounds args))).
Proof.
  apply (run_register_inv
           (λ st, mainTitle st = title ∧
                  created (log st) = created_from title 0 (windows st))); simpl.
  - done.
  - intros st e Hp [Ht HI]. by rewrite (created_plain st).
  - done.
  - done.
  - done.
  - done.
  - intros st w d d' Hw [Ht HI]. by rewrite (created_from_typing _ _ _ _ d).
  - intros url options st [Ht HI]. rewrite createVncWindow_spec; simpl.
    split; [done|]. unfold created in *.
    rewrite omap_app, HI, created_from_app; simpl. by rewrite Ht.
  - intros st [Ht HI]. rewrite createConnectionWindow_spec; simpl.
    split; [done|]. unfold created in *.
    rewrite omap_app, HI, created_from_app; simpl. by rewrite Ht.
Qed.

(** ** No method call before the client is constructed *)

Lemma constructed_cons_client w url o l :
  constructed (newRFB w url o :: l) = {[w]} ∪ constructed l.
Proof. reflexivity. Qed.

Lemma constructed_app l l' : constructed (l ++ l') = constructed l ∪ constructed l'.
Proof.
  unfold constructed, clients. by rewrite omap_app, fmap_app, list_to_set_app_L.
Qed.

Lemma calls_ok_app seen l l' :
  calls_ok seen (l ++ l') = calls_ok seen l && calls_ok (constructed l ∪ seen) l'.
Proof.
  revert seen. induction l as [|e l IH]; intros seen.
  - simpl. unfold constructed; simpl. by rewrite (left_id_L ∅ (∪)).
  - destruct e; simpl; rewrite ?IH; try done.
    + rewrite constructed_cons_client.
      by rewrite (assoc_L (∪) (constructed l)), (comm_L (∪) (constructed l)).
    + by rewrite Bool.andb_assoc.
Qed.

Lemma elem_of_constructed w l :
  w ∈ constructed l → ∃ url o, newRFB w url o ∈ l.
Proof.
  unfold constructed, clients. rewrite elem_of_list_to_set, list_elem_of_fmap.
  intros ([[w' url] o] & -> & Hin). apply list_elem_of_omap in Hin as (e & He & Heq).
  destruct e; try discriminate. injection Heq as -> -> ->. by exists url, o.
Qed.

Lemma calls_inv_reachable title sounds args l :
  calls_inv (run l (register title sounds args)).
Proof.
  apply run_register_inv; unfold calls_inv; simpl.
  - split; [done|]. by intros w url opts.
  - intros st e Hp [Hok Hw]. rewrite calls_ok_app, Hok, constructed_app; simpl.
    split.
    + destruct e; simpl in *; try done.
      destruct Hp as (url & opts & Hp). rewrite andb_true_r, bool_decide_eq_true.
      apply elem_of_union_l. by eapply Hw.
    + intros w url opts Hl. apply elem_of_union_l. by eapply Hw.
  - done.
  - done.
  - done.
  - done.
  - intros st w d d' Hd [Hok Hw]. split; [done|]. intros w' url opts Hl.
    destruct (decide (w = w')) as [<-|Hne].
    + rewrite list_lookup_insert_eq in Hl by (by eapply lookup_lt_Some). done.
    + rewrite list_lookup_insert_ne in Hl by done. by eapply Hw.
  - intros url options st [Hok Hw]. rewrite createVncWindow_spec; simpl.
    rewrite calls_ok_app, Hok, constructed_app; simpl. split.
    + rewrite andb_true_r, bool_decide_eq_true.
      apply elem_of_union_l. by apply elem_of_singleton.
    + intros w url' opts Hl. apply lookup_app_Some in Hl as [Hl|[Hlen Hl]].
      * apply elem_of_union_l. by eapply Hw.
      * apply elem_of_union_r. apply list_lookup_singleton_Some in Hl as [Hz _].
        assert (w = length (windows st)) as -> by lia.
        unfold constructed; simpl. apply elem_of_union_l. by apply elem_of_singleton.
  - intros st [Hok Hw]. rewrite createConnectionWindow_spec; simpl.
    rewrite calls_ok_app, Hok, constructed_app; simpl. split; [done|].
    intros w url opts Hl. apply lookup_app_Some in Hl as [Hl|[Hlen Hl]].
    + apply elem_of_union_l. by eapply Hw.
    + by apply list_lookup_singleton_Some in Hl as [_ ?].
Qed.

(** X5.  No method of an RFB client is ever called before that client is
    constructed: wherever a call on the client of window [w] stands in the
    log, the construction of a client on [w] stands before it.  (The
    listeners of lines 61 and 91-103 use [rfb], which is assigned on line
    63.) *)
Theorem X5_no_call_before_construction title sounds args l l1 l2 w c :
  log (run l (register title sounds args)) = l1 ++ rfbCall w c :: l2 →
  ∃ url o, newRFB w url o ∈ l1.
Proof.
  intros Hlog. destruct (calls_inv_reachable title sounds args l) as [Hok _].
  rewrite Hlog, calls_ok_app in Hok. simpl in Hok.
  apply andb_true_iff in Hok as [_ Hok]. apply andb_true_iff in Hok as [Hok _].
  rewrite bool_decide_eq_true, (right_id_L ∅ (∪)) in Hok.
  by apply elem_of_constructed.
Qed.

Lemma X5_no_call_before_construction_witness :
  ∃ url o, newRFB 1 url o ∈ take 8 (log connected).
Proof.
  apply (X5_no_call_before_construction "VNC" true None
           [DialogEv 0 Dialog.connect; WinEv 1 Wrender]
           (take 8 (log connected)) [] 1 RFB.windowResize).
  vm_compute. reflexivity.
Defined.

(** ** Sounds *)

(** X6.  A sound is played only when the sounds service is there, and the
    only sound ever played is 'bell': without the service the 'bell' event
    of an RFB client is dropped. *)
Theorem X6_sounds_need_the_service title sounds args l name :
  soundsPlay name ∈ log (run l (register title sounds args)) →
  sounds = true ∧ name = "bell".
Proof.
  revert name.
  apply (run_register_inv
           (λ st, hasSounds st = sounds ∧
                  ∀ name, soundsPlay name ∈ log st → sounds = true ∧ name = "bell"));
    simpl.
  - split; [done|]. intros name Hin.
    repeat (apply elem_of_cons in Hin as [Hin|Hin]; [discriminate|]).
    by apply elem_of_nil in Hin.
  - intros st e Hp [Hs HI]. split; [done|]. intros name Hin.
    apply elem_of_app in Hin as [Hin|Hin]; [by apply HI|].
    apply list_elem_of_singleton in Hin. subst e. simpl in Hp. by rewrite <-Hs.
  - done.
  - done.
  - done.
  - done.
  - done.
  - intros url options st [Hs HI]. rewrite createVncWindow_spec; simpl.
    split; [done|]. intros name Hin.
    apply elem_of_app in Hin as [Hin|Hin]; [by apply HI|].
    repeat (apply elem_of_cons in Hin as [Hin|Hin]; [discriminate|]).
    by apply elem_of_nil in Hin.
  - intros st [Hs HI]. rewrite createConnectionWindow_spec; simpl.
    split; [done|]. intros name Hin.
    apply elem_of_app in Hin as [Hin|Hin]; [by apply HI|].
    repeat (apply elem_of_cons in Hin as [Hin|Hin]; [discriminate|]).
    by apply elem_of_nil in Hin.
Qed.

Lemma X6_sounds_need_the_service_witness :
  soundsPlay "bell" ∈ log (run [DialogEv 0 Dialog.connect; RfbEv 1 Rbell]
                             (register "VNC" true None)) ∧
  true = true ∧ "bell" = "bell".
Proof.
  assert (soundsPlay "bell" ∈ log (run [DialogEv 0 Dialog.connect; RfbEv 1 Rbell]
                                     (register "VNC" true None))) as Hin.
  { vm_compute. repeat first [apply list_elem_of_here|apply list_elem_of_further]. }
  split; [exact Hin|].
  exact (X6_sounds_need_the_service "VNC" true None
           [DialogEv 0 Dialog.connect; RfbEv 1 Rbell] "bell" Hin).
Defined.


(** ** What one step adds to the log *)


(** X12.  [rfb.disconnect()] is called on the client of a window only by
    the 'vnc:disconnect' event of that window, which the Disconnect item of
    the tray menu emits.  No other stimulus calls it: destroying a VNC
    window, in particular, leaves its RFB client connected. *)
Theorem X12_only_the_menu_disconnects s st w :
  rfbCall w RFB.disconnect ∈ new_effects st (state_of (step s st)) →
  s = WinEv w Wvnc_disconnect ∨ s = MenuClick (AwinEmit w Wvnc_disconnect).
Proof.
  step_effects s st; intros Hin;
    repeat (apply elem_of_cons in Hin as [Hin|Hin]; [try discriminate|]);
    try (by apply elem_of_nil in Hin).
  all: injection Hin as ->; by (left + right).
Qed.

Lemma X12_only_the_menu_disconnects_witness :
  rfbCall 1 RFB.disconnect
  ∈ new_effects connected (state_of (step (MenuClick (AwinEmit 1 Wvnc_disconnect)) connected)) ∧
  (MenuClick (AwinEmit 1 Wvnc_disconnect) = WinEv 1 Wvnc_disconnect ∨
   MenuClick (AwinEmit 1 Wvnc_disconnect) = MenuClick (AwinEmit 1 Wvnc_disconnect)).
Proof.
  assert (rfbCall 1 RFB.disconnect
          ∈ new_effects connected
              (state_of (step (MenuClick (AwinEmit 1 Wvnc_disconnect)) connected))) as Hin.
  { vm_compute. apply list_elem_of_here. }
  split; [exact Hin|].
  exact (X12_only_the_menu_disconnects _ connected 1 Hin).
Defined.


(** ** The tray *)

Lemma log_prefix_step s st : log st `prefix_of` log (state_of (step s st)).
Proof.
  revert st. change (mono (λ st st', log st `prefix_of` log st') (step s)).
  apply step_mono.
  - split; [by intros x|]. intros a b c Hab Hbc. by etrans.
  - intros st' e _. by apply prefix_app_r.
  - intros st' url w opts _. rewrite on_vnc_create_session_any.
    by destruct (sessions_set_cases url (mkSession w opts ∅) st') as [[_ ->]|[_ ->]].
  - intros st' url w. by rewrite on_vnc_destroy_session_spec.
  - intros st' url w caps opts _. unfold on_vnc_update_session.
    destruct (sessions_get url st') as [?|?|[]|]; simpl;
      first [done|by apply prefix_app_r].
  - done.
  - intros url options st'. rewrite createVncWindow_spec. by apply prefix_app_r.
  - intros st'. rewrite createConnectionWindow_spec. by apply prefix_app_r.
Qed.

Lemma run_log_prefix l st : log st `prefix_of` log (run l st).
Proof.
  revert st. induction l as [|s l IH]; intros st; simpl; [done|].
  etrans; [apply log_prefix_step|apply IH].
Qed.

Lemma step_log s st :
  log (state_of (step s st)) = log st ++ new_effects st (state_of (step s st)).
Proof.
  destruct (log_prefix_step s st) as [es Hes]. by rewrite (new_effects_app _ _ es).
Qed.

Lemma step_tray s st :
  List.filter is_trayCreate (new_effects st (state_of (step s st))) = [] ∧
  List.filter is_trayDestroy (new_effects st (state_of (step s st)))
  = (if is_proc_destroy s then [trayDestroy] else []).
Proof. step_effects s st; by split. Qed.

Lemma run_tray l st :
  List.filter is_trayCreate (log (run l st)) = List.filter is_trayCreate (log st) ∧
  length (List.filter is_trayDestroy (log (run l st)))
  = (length (List.filter is_trayDestroy (log st))
     + length (List.filter is_proc_destroy l))%nat.
Proof.
  revert st. induction l as [|s l IH]; intros st; simpl; [by rewrite Nat.add_0_r|].
  destruct (IH (state_of (step s st))) as [-> ->].
  rewrite step_log, !List.filter_app, !length_app.
  destruct (step_tray s st) as [-> ->].
  rewrite (right_id_L [] (++)). split; [done|].
  destruct s; simpl; lia.
Qed.

(** X14.  [register] first makes the application object and the translate
    function, and then the tray entry: these are its first three calls, and
    the tray entry is made once and never again.  [tray.destroy()] is
    called once for each 'destroy' event of [proc] and on no other
    occasion: the Quit item of the menu only calls [proc.destroy()]. *)
Theorem X14_tray_lifecycle title sounds args l :
  take 3 (log (run l (register title sounds args)))
  = [makeApplication; localeTranslatableFlat; trayCreate] ∧
  List.filter is_trayCreate (log (run l (register title sounds args))) = [trayCreate] ∧
  length (List.filter is_trayDestroy (log (run l (register title sounds args))))
  = length (List.filter is_proc_destroy l) ∧
  ∀ st, step (MenuClick AprocDestroy) st = Ok (set_log (log st ++ [procDestroy]) st).
Proof.
  assert (∃ es, log (register title sounds args)
                = [makeApplication; localeTranslatableFlat; trayCreate] ++ es ∧
                List.filter is_trayCreate es = [] ∧
                List.filter is_trayDestroy es = []) as (es & Hreg & Hc & Hd).
  { unfold register. do 3 (erewrite and_then_Ok by reflexivity).
    destruct args as [saved|].
    - apply (keeps_forEach
               (λ st, ∃ es, log st = [makeApplication; localeTranslatableFlat; trayCreate] ++ es ∧
                            List.filter is_trayCreate es = [] ∧
                            List.filter is_trayDestroy es = []));
        [|by exists []].
      intros url st (es & Hl & Hc & Hd). rewrite createVncWindow_spec; simpl.
      exists (es ++ [createWindow (length (windows st))
                       (mkWindowOptions logo (mainTitle st +:+ " - Connecting to " +:+ url)
                                        800 600 None None);
                     newRFB (length (windows st)) url
                       (rfb_options (default ∅ (saved !! url)));
                     rfbCall (length (windows st)) RFB.windowResize]).
      rewrite Hl, !List.filter_app, Hc, Hd. done.
    - rewrite createConnectionWindow_spec; simpl.
      by eexists [_; _]. }
  destruct (run_tray l (register title sounds args)) as [Hc' Hd'].
  destruct (run_log_prefix l (register title sounds args)) as [k Hk].
  split_and!.
  - by rewrite Hk, Hreg.
  - rewrite Hc', Hreg. simpl. by rewrite Hc.
  - rewrite Hd', Hreg. simpl. by rewrite Hd.
  - done.
Qed.

(** ** Restoring and persisting is a round trip *)

Lemma register_windows_saved title sounds (saved : gmap string JsObj) :
  windows (register title sounds (Some saved))
  = (λ p, VncWindow p.1 p.2) <$> map_to_list saved.
Proof.
  unfold register. do 3 (erewrite and_then_Ok by reflexivity).
  edestruct (forEach_createVncWindow saved (map_to_list saved).*1) as (st' & Hrun & Hw).
  rewrite Hrun. simpl in *. rewrite Hw. simpl.
  rewrite <-(saved_entries saved) at 2. by rewrite <-!list_fmap_compose.
Qed.

(** While only 'render' events arrive, the windows stay, and a session is
    that of a restored window: its options are the saved ones, its
    capabilities [{}]. *)
Lemma render_step_restored (saved : gmap string JsObj) s st :
  saved !! "__proto__" = None →
  is_render s = true →
  (∀ w url opts, windows st !! w = Some (VncWindow url opts) → saved !! url = Some opts) →
  (∀ url x, sessions st !! url = Some x →
            saved !! url = Some (options x) ∧ capabilities x = ∅) →
  windows (state_of (step s st)) = windows st ∧
  (∀ url x, sessions (state_of (step s st)) !! url = Some x →
            saved !! url = Some (options x) ∧ capabilities x = ∅) ∧
  (∀ url, is_Some (sessions st !! url) → is_Some (sessions (state_of (step s st)) !! url)) ∧
  (∀ w url opts, s = WinEv w Wrender → windows st !! w = Some (VncWindow url opts) →
                 is_Some (sessions (state_of (step s st)) !! url)).
Proof.
  intros Hproto Hs HW HS. destruct s as [w ev| | | | |]; try discriminate.
  destruct ev; try discriminate. clear Hs.
  destruct (windows st !! w) as [[url opts|d]|] eqn:Hw.
  - assert (url ≠ "__proto__") as Hne.
    { intros ->. apply HW in Hw. congruence. }
    rewrite (render_event st w url opts Hw Hne). simpl. split_and!.
    + done.
    + intros url' x. rewrite lookup_insert. case_decide as Hu.
      * intros [= <-]. simpl. subst. split; [by eapply HW|done].
      * apply HS.
    + intros url' Hsome. rewrite lookup_insert. case_decide; [by eexists|done].
    + intros w' url' opts' [= <-]. rewrite Hw. intros [= <- <-].
      rewrite lookup_insert_eq. by eexists.
  - unfold step, win_emit. rewrite Hw. simpl. split_and!; try done.
    intros w' url' opts' [= <-]. by rewrite Hw.
  - unfold step, win_emit. rewrite Hw. simpl. split_and!; try done.
    intros w' url' opts' [= <-]. by rewrite Hw.
Qed.

Lemma render_run_restored (saved : gmap string JsObj) l st :
  saved !! "__proto__" = None →
  Forall (λ s, is_render s = true) l →
  (∀ w url opts, windows st !! w = Some (VncWindow url opts) → saved !! url = Some opts) →
  (∀ url x, sessions st !! url = Some x →
            saved !! url = Some (options x) ∧ capabilities x = ∅) →
  (∀ url x, sessions (run l st) !! url = Some x →
            saved !! url = Some (options x) ∧ capabilities x = ∅) ∧
  (∀ w url opts, windows st !! w = Some (VncWindow url opts) →
                 WinEv w Wrender ∈ l ∨ is_Some (sessions st !! url) →
                 is_Some (sessions (run l st) !! url)).
Proof.
  intros Hproto Hl. revert st. induction Hl as [|s l Hs Hl IH]; intros st HW HS.
  - split; [done|]. intros w url opts _ [Hin|Hsome]; [|done].
    by apply elem_of_nil in Hin.
  - destruct (render_step_restored saved s st Hproto Hs HW HS)
      as (Hwin & HS' & Hkeep & Hnew).
    destruct (IH (state_of (step s st))) as [IH1 IH2].
    { intros w url opts. rewrite Hwin. apply HW. }
    { exact HS'. }
    simpl. split; [exact IH1|].
    intros w url opts Hw Hcase. apply (IH2 w url opts); [by rewrite Hwin|].
    destruct Hcase as [Hin|Hsome].
    + apply elem_of_cons in Hin as [<-|Hin]; [right; by eapply Hnew|by left].
    + right. by apply Hkeep.
Qed.

(** X9.  Saving and restoring sessions is a round trip, as long as
    '__proto__' is no key of the saved sessions.  When the application is
    registered with such saved sessions and the shell has rendered every
    restored window (in any order, any number of times), the session map
    tracks exactly the saved URLs, each with its saved options and
    capabilities [{}], and [proc.args.sessions] is the saved map again. *)
Theorem X9_restore_round_trip title sounds (saved : gmap string JsObj) l :
  saved !! "__proto__" = None →
  Forall (λ s, is_render s = true) l →
  (∀ w, (w < length (windows (register title sounds (Some saved))))%nat →
        WinEv w Wrender ∈ l) →
  options <$> sessions (run l (register title sounds (Some saved))) = saved ∧
  args_sessions (run l (register title sounds (Some saved))) = Some saved ∧
  ∀ url x, sessions (run l (register title sounds (Some saved))) !! url = Some x →
           capabilities x = ∅.
Proof.
  intros Hproto Hl Hall.
  destruct (register_bookkeeping title sounds (Some saved)) as [Hs0 Ha0].
  assert (∀ w url opts,
            windows (register title sounds (Some saved)) !! w = Some (VncWindow url opts) →
            saved !! url = Some opts) as HW.
  { intros w url opts. rewrite register_windows_saved, list_lookup_fmap.
    destruct (map_to_list saved !! w) as [[u o]|] eqn:Hl'; [|done].
    intros [= <- <-]. apply elem_of_map_to_list. by eapply list_elem_of_lookup_2. }
  destruct (render_run_restored saved l (register title sounds (Some saved)) Hproto Hl HW)
    as [HS Hcov].
  { intros url x. by rewrite Hs0, lookup_empty. }
  assert (options <$> sessions (run l (register title sounds (Some saved))) = saved) as Heq.
  { apply map_eq. intros url. rewrite lookup_fmap.
    destruct (saved !! url) as [o|] eqn:Hsaved.
    - pose proof Hsaved as Hsaved'.
      apply elem_of_map_to_list, list_elem_of_lookup in Hsaved' as [w Hw].
      assert (windows (register title sounds (Some saved)) !! w = Some (VncWindow url o))
        as Hwin.
      { by rewrite register_windows_saved, list_lookup_fmap, Hw. }
      destruct (Hcov w url o Hwin) as [x Hx].
      { left. apply Hall. by eapply lookup_lt_Some. }
      rewrite Hx. simpl. destruct (HS url x Hx) as [Ho _]. congruence.
    - destruct (sessions (run l (register title sounds (Some saved))) !! url)
        as [x|] eqn:Hx; [|done].
      destruct (HS url x Hx) as [Ho _]. congruence. }
  split_and!; [exact Heq| |intros url x Hx; by apply (HS url x)].
  assert (persisted (Some saved) (register title sounds (Some saved))) as Hp0
    by (right; by split).
  destruct (run_keeps (persisted (Some saved)) l
              (λ s _, keeps_persisted (Some saved) s)
              (register title sounds (Some saved)) Hp0)
    as [Hp|[He Hp]].
  - by rewrite Hp, Heq.
  - exact Hp.
Qed.

Lemma X9_restore_round_trip_witness :
  args_sessions (run [WinEv 1 Wrender; WinEv 0 Wrender; WinEv 1 Wrender]
                   (register "VNC" false (Some two_saved)))
  = Some two_saved.
Proof.
  apply (X9_restore_round_trip "VNC" false two_saved
           [WinEv 1 Wrender; WinEv 0 Wrender; WinEv 1 Wrender]).
  - vm_compute. reflexivity.
  - repeat constructor.
  - intros w Hw. vm_compute in Hw.
    destruct w as [|[|w]]; [| |lia].
    + apply list_elem_of_further, list_elem_of_here.
    + apply list_elem_of_here.
Defined.


(** ** Typing in the dialog *)

Lemma field_value_merge f g v d :
  field_value f (dialog_merge g v d) = if field_eqb f g then v else field_value f d.
Proof. by destruct f, g. Qed.

Lemma setState_event st w d f v :
  windows st !! w = Some (ConnectionWindow d) →
  step (DialogEv w (Dialog.setState f v)) st
  = Ok (set_windows (<[w := ConnectionWindow (dialog_merge f v d)]> (windows st)) st).
Proof. intros Hw. unfold step, dialog_dispatch. by rewrite Hw. Qed.

(** X10.  Typing in the fields of a connection dialog only changes that
    dialog: no call is made, no session and no other window changes.  The
    dialog then holds, in each field, the last value typed into it, or the
    value it had when nothing was typed there; the three fields do not
    disturb each other.  That is what Connect will use. *)
Theorem X10_typing_only_changes_the_dialog st w d inputs :
  windows st !! w = Some (ConnectionWindow d) →
  (∃ d', windows (run (typing w inputs) st) !! w = Some (ConnectionWindow d') ∧
         ∀ f, field_value f d' = default (field_value f d) (last_typed f inputs)) ∧
  (∀ w', w' ≠ w → windows (run (typing w inputs) st) !! w' = windows st !! w') ∧
  log (run (typing w inputs) st) = log st ∧
  sessions (run (typing w inputs) st) = sessions st ∧
  args_sessions (run (typing w inputs) st) = args_sessions st.
Proof.
  revert st d. induction inputs as [|[g v] inputs IH]; intros st d Hw.
  - split_and!; try done. by exists d.
  - change (typing w ((g, v) :: inputs))
      with (DialogEv w (Dialog.setState g v) :: typing w inputs).
    cbn [run]. rewrite (setState_event st w d g v Hw). cbn [state_of].
    destruct (IH (set_windows (<[w := ConnectionWindow (dialog_merge g v d)]> (windows st)) st)
                (dialog_merge g v d)) as ((d' & Hd' & Hf) & Hother & Hlog & Hs & Ha).
    { simpl. apply list_lookup_insert_eq. by eapply lookup_lt_Some. }
    split_and!; try done.
    + exists d'. split; [exact Hd'|]. intros f. rewrite Hf, field_value_merge.
      unfold last_typed. simpl. destruct (field_eqb f g); [|done].
      rewrite last_cons. by destruct (last _).
    + intros w' Hne. rewrite Hother by done. simpl.
      by rewrite list_lookup_insert_ne.
Qed.

Lemma X10_typing_only_changes_the_dialog_witness :
  ∃ d', windows (run (typing 0 [(Dialog.Furl, "ws://a:6080"); (Dialog.Fpassword, "x");
                                (Dialog.Furl, "ws://b:6080")]) started) !! 0%nat
        = Some (ConnectionWindow d') ∧
        Dialog.url d' = "ws://b:6080" ∧ Dialog.username d' = EmptyString ∧
        Dialog.password d' = "x".
Proof.
  assert (windows started !! 0%nat = Some (ConnectionWindow initial_dialog)) as Hw
    by (vm_compute; reflexivity).
  destruct (X10_typing_only_changes_the_dialog started 0 initial_dialog
              [(Dialog.Furl, "ws://a:6080"); (Dialog.Fpassword, "x");
               (Dialog.Furl, "ws://b:6080")] Hw)
    as ((d' & Hd' & Hf) & _).
  exists d'. split; [exact Hd'|].
  split_and!; [apply (Hf Dialog.Furl)|apply (Hf Dialog.Fusername)|apply (Hf Dialog.Fpassword)].
Defined.

(** ** Who calls what *)

(** X16.  A method of the RFB client of window [w] is called only in
    answer to an event of window [w] itself (emitted by the shell or by an
    item of the tray menu), to the 'connect' event of that same client, or,
    for the first resize, by the factory that has just made [w] for the
    Connect button of a dialog.  Events of one window never reach the client
    of another. *)
Theorem X16_calls_stay_on_the_own_client s st w c :
  rfbCall w c ∈ new_effects st (state_of (step s st)) →
  (∃ ev, s = WinEv w ev ∨ s = MenuClick (AwinEmit w ev)) ∨
  s = RfbEv w Rconnect ∨
  (∃ d, s = DialogEv d Dialog.connect ∧ w = length (windows st)).
Proof.
  step_effects s st; intros Hin;
    repeat (apply elem_of_cons in Hin as [Hin|Hin]; [try discriminate|]);
    try (by apply elem_of_nil in Hin);
    injection Hin as -> ->;
    first [ by (left; eexists; left)
          | by (left; eexists; right)
          | by (right; left)
          | by (right; right; eexists) ].
Qed.

Lemma X16_calls_stay_on_the_own_client_witness :
  rfbCall 1 (RFB.sendKey 0 "KeyA" true)
  ∈ new_effects connected (state_of (step (WinEv 1 (Wkeydown "KeyA")) connected)) ∧
  ((∃ ev, WinEv 1 (Wkeydown "KeyA") = WinEv 1 ev ∨
          WinEv 1 (Wkeydown "KeyA") = MenuClick (AwinEmit 1 ev)) ∨
   WinEv 1 (Wkeydown "KeyA") = RfbEv 1 Rconnect ∨
   (∃ d, WinEv 1 (Wkeydown "KeyA") = DialogEv d Dialog.connect ∧
         1%nat = length (windows connected))).
Proof.
  assert (rfbCall 1 (RFB.sendKey 0 "KeyA" true)
          ∈ new_effects connected (state_of (step (WinEv 1 (Wkeydown "KeyA")) connected)))
    as Hin.
  { vm_compute. apply list_elem_of_here. }
  split; [exact Hin|].
  exact (X16_calls_stay_on_the_own_client _ connected 1 _ Hin).
Defined.

(** X17.  A notification is created on three occasions only, all of them
    events of the RFB client of a VNC window: 'securityfailure', with the
    message 'Security handshake failure (undefined): <reason>' (the status
    of the failure is read under a name the event does not have, so it is
    never shown), 'disconnect', with 'Disconnected from <url>', and
    'connect', with 'Connected to <url>'.  It always carries the
    application's icon and title. *)
Theorem X17_notifications s st i t m :
  notification i t m ∈ new_effects st (state_of (step s st)) →
  i = logo ∧ t = mainTitle st ∧
  ∃ w url opts,
    windows st !! w = Some (VncWindow url opts) ∧
    ((∃ status reason,
         s = RfbEv w (Rsecurityfailure status reason) ∧
         m = "Security handshake failure (undefined): " +:+ reason) ∨
     (s = RfbEv w Rdisconnect ∧ m = "Disconnected from " +:+ url) ∨
     (s = RfbEv w Rconnect ∧ m = "Connected to " +:+ url)).
Proof.
  step_effects s st; intros Hin;
    repeat (apply elem_of_cons in Hin as [Hin|Hin]; [try discriminate|]);
    try (by apply elem_of_nil in Hin);
    injection Hin as -> -> ->;
    (split; [done|split; [done|]]); eexists _, _, _; (split; [eassumption|]).
  - left. by eexists _, _.
  - right; left. done.
  - right; right. done.
Qed.

Lemma X17_notifications_witness :
  notification logo "VNC" "Security handshake failure (undefined): denied"
  ∈ new_effects connected
      (state_of (step (RfbEv 1 (Rsecurityfailure 1 "denied")) connected)) ∧
  logo = logo.
Proof.
  assert (notification logo "VNC" "Security handshake failure (undefined): denied"
          ∈ new_effects connected
              (state_of (step (RfbEv 1 (Rsecurityfailure 1 "denied")) connected))) as Hin.
  { vm_compute. apply list_elem_of_here. }
  split; [exact Hin|].
  exact (proj1 (X17_notifications _ connected _ _ _ Hin)).
Defined.

(** X18.  The application acts on the shell's windows on three occasions
    only.  [win.destroy()] is called on a VNC window when its own RFB client
    fires 'disconnect'; [win.close()] is called on a connection dialog by
    its Close and Connect buttons; the title of a VNC window is set when its
    own client fires 'desktopname', to '<title> - <name>'. *)
Theorem X18_calls_on_windows s st w :
  (winDestroy w ∈ new_effects st (state_of (step s st)) →
   s = RfbEv w Rdisconnect ∧
   ∃ url opts, windows st !! w = Some (VncWindow url opts)) ∧
  (winClose w ∈ new_effects st (state_of (step s st)) →
   (s = DialogEv w Dialog.close ∨ s = DialogEv w Dialog.connect) ∧
   ∃ d, windows st !! w = Some (ConnectionWindow d)) ∧
  (∀ t, winSetTitle w t ∈ new_effects st (state_of (step s st)) →
        ∃ name, s = RfbEv w (Rdesktopname name) ∧ t = mainTitle st +:+ " - " +:+ name).
Proof.
  split_and!; [| |intros t];
    step_effects s st; intros Hin;
    repeat (apply elem_of_cons in Hin as [Hin|Hin]; [try discriminate|]);
    try (by apply elem_of_nil in Hin).
  - injection Hin as ->. split; [done|]. by eexists _, _.
  - injection Hin as ->. split; [by left|]. by eexists.
  - injection Hin as ->. split; [by right|]. by eexists.
  - injection Hin as -> ->. by eexists.
Qed.

Lemma X18_calls_on_windows_witness :
  winDestroy 1 ∈ new_effects connected (state_of (step (RfbEv 1 Rdisconnect) connected)) ∧
  RfbEv 1 Rdisconnect = RfbEv 1 Rdisconnect.
Proof.
  assert (winDestroy 1
          ∈ new_effects connected (state_of (step (RfbEv 1 Rdisconnect) connected))) as Hin.
  { vm_compute. apply list_elem_of_further, list_elem_of_here. }
  split; [exact Hin|].
  exact (proj1 (proj1 (X18_calls_on_windows _ connected 1) Hin)).
Defined.

(** ** Names the session object inherits *)

Lemma sessions_get_proto st :
  sessions st !! "__proto__" = None →
  sessions_get "__proto__" st
  = match sessions_proto st with
    | Some r => Found_prototype r
    | None => Found_elsewhere TObjectPrototype
    end.
Proof.
  intros Hs. unfold sessions_get, Object_prototype_get, record_field. rewrite Hs. simpl.
  by destruct (sessions_proto st).
Qed.

Lemma sessions_get_member st url :
  sessions st !! url = None → is_member url = true → url ≠ "__proto__" →
  sessions_get url st = Found_elsewhere (Tmember url).
Proof.
  intros Hs Hm Hne. unfold sessions_get. rewrite Hs.
  assert (record_field url = None) as ->.
  { apply record_field_None. intros Hin.
    repeat (apply elem_of_cons in Hin as [->|Hin]; [done|]). by apply elem_of_nil in Hin. }
  unfold Object_prototype_get.
  rewrite (proj2 (String.eqb_neq _ _) Hne), Hm. by destruct (sessions_proto st).
Qed.

(** X19.  A connection to the URL '__proto__' is never tracked.  In every
    reachable state '__proto__' is no key of the session map and labels no
    submenu of the tray menu.  The 'render' of a VNC window made for
    '__proto__' installs the record as prototype of the session object and
    leaves the tracked sessions as they are (the persisted copy is made
    anew from them); a 'capabilities' event of the client of such a window
    stores the capabilities in that record or, while no record is
    installed, in [Object.prototype] itself, and throws nothing. *)
Theorem X19_proto_url_is_never_tracked st :
  reachable st →
  sessions st !! "__proto__" = None ∧
  (∀ i, i ∈ getSessionMenu st → item_label i ≠ "__proto__") ∧
  (∀ w opts,
      windows st !! w = Some (VncWindow "__proto__" opts) →
      step (WinEv w Wrender) st
      = Ok (set_args_sessions (Some (options <$> sessions st))
              (set_sessions_proto (Some (mkSession w opts ∅)) st)) ∧
      (∀ caps r,
          sessions_proto st = Some r →
          step (RfbEv w (Rcapabilities caps)) st
          = Ok (set_log (log st ++ [consoleWarn (JObj caps)])
                  (set_sessions_proto (Some (mkSession (win r) (options r) caps)) st))) ∧
      (∀ caps,
          sessions_proto st = None →
          step (RfbEv w (Rcapabilities caps)) st
          = Ok (set_log
                  (log st ++ [ assignCapabilities TObjectPrototype caps;
                               consoleWarn (JObj caps) ])
                  (set_prototype_capabilities true st)))).
Proof.
  intros Hr. pose proof (reachable_no_own_proto st Hr) as Hs.
  split; [exact Hs|]. split.
  - intros i Hi. unfold getSessionMenu in Hi.
    apply list_elem_of_fmap in Hi as ([u s] & -> & Hi).
    apply elem_of_map_to_list in Hi. simpl. intros ->. congruence.
  - intros w opts Hw. split; [by apply render_event_proto|]. split.
    + intros caps r Hp. rewrite (capabilities_step st w "__proto__" opts) by done.
      unfold and_then, caught, on_vnc_update_session.
      by rewrite (sessions_get_proto st Hs), Hp.
    + intros caps Hp. rewrite (capabilities_step st w "__proto__" opts) by done.
      unfold and_then, caught, on_vnc_update_session.
      rewrite (sessions_get_proto st Hs), Hp. unfold effect, set_log; simpl.
      by rewrite <-(assoc_L (++)).
Qed.

Lemma X19_proto_url_is_never_tracked_witness :
  sessions proto_connected !! "__proto__" = None ∧
  sessions proto_connected = ∅ ∧
  sessions_proto proto_connected = Some (mkSession 1 demo_options ∅).
Proof.
  assert (reachable proto_connected) as Hr.
  { exists "VNC", true, None,
      [DialogEv 0 (Dialog.setState Dialog.Furl "__proto__"); DialogEv 0 Dialog.connect;
       WinEv 1 Wrender].
    vm_compute. reflexivity. }
  split; [exact (proj1 (X19_proto_url_is_never_tracked proto_connected Hr))|].
  split; vm_compute; reflexivity.
Defined.

(** X20.  The name of a member of [Object.prototype] ('constructor',
    'toString', 'valueOf', ...), used as a URL that is not tracked, makes
    the 'vnc:update-session' listener write the capabilities on that member
    instead of throwing: the session map, its persisted copy and the
    windows stay as they are, no exception is printed, and the
    'capabilities' listener of the client prints the capabilities as for a
    tracked URL. *)
Theorem X20_inherited_names_do_not_throw st url w caps :
  sessions st !! url = None →
  is_member url = true →
  url ≠ "__proto__" →
  on_vnc_update_session url w caps st
  = Ok (set_log (log st ++ [assignCapabilities (Tmember url) caps]) st) ∧
  (∀ opts, windows st !! w = Some (VncWindow url opts) →
           step (RfbEv w (Rcapabilities caps)) st
           = Ok (set_log
                   (log st ++ [ assignCapabilities (Tmember url) caps;
                                consoleWarn (JObj caps) ])
                   st)).
Proof.
  intros Hs Hm Hne.
  assert (on_vnc_update_session url w caps st
          = Ok (set_log (log st ++ [assignCapabilities (Tmember url) caps]) st)) as Hu.
  { unfold on_vnc_update_session. by rewrite (sessions_get_member st url Hs Hm Hne). }
  split; [exact Hu|]. intros opts Hw.
  rewrite (capabilities_step st w url opts) by done.
  unfold and_then. rewrite (caught_Ok _ _ _ Hu).
  unfold effect, set_log; simpl. by rewrite <-(assoc_L (++)).
Qed.

Lemma X20_inherited_names_do_not_throw_witness :
  sessions member_connecting !! "constructor" = None ∧
  is_member "constructor" = true ∧
  on_vnc_update_session "constructor" 1 ∅ member_connecting
  = Ok (set_log (log member_connecting ++ [assignCapabilities (Tmember "constructor") ∅])
          member_connecting).
Proof.
  assert (sessions member_connecting !! "constructor" = None) as Hs
    by (vm_compute; reflexivity).
  assert (is_member "constructor" = true) as Hm by (vm_compute; reflexivity).
  assert ("constructor" ≠ "__proto__") as Hne by done.
  split; [exact Hs|]. split; [exact Hm|].
  exact (proj1 (X20_inherited_names_do_not_throw member_connecting "constructor" 1 ∅
                  Hs Hm Hne)).
Defined.
